(** * Metro's DeltaCalculator and the HMR change handler

    A shallow embedding of [packages/metro/src/DeltaBundler/DeltaCalculator.js]
    and of the change handler exercised by
    [packages/metro/src/HmrServer/__tests__/HmrServer-test.js].

    - JavaScript [Set<string>] and [Map<string, V>] iterate in insertion
      order, and that order is observable here ([Array.from(set).filter],
      [reorderGraph]); they are modelled as insertion-ordered lists.
    - The traversal engine ([./traverseDependencies]) and the bundler are
      collaborators of the class: they are section variables that read and
      write an abstract [World] and, for the engine, the graph they are
      handed.  The bundler is handed a callback; what it does with it is a
      [BundlerRun], a resumption that asks the callback and goes on from
      its answers.
    - Every call the calculator makes to a collaborator, directly or in a
      callback it handed out, is appended to a trace, so that "is invoked
      with" and "is not invoked" are statements about the trace.
    - An [async] method is modelled by the sequence of its synchronous
      segments: what it does up to its first suspension ([_start]) and
      what it does when it is resumed; a rejected promise is the [inl] of
      a sum. *)

From Stdlib Require Import String List Bool ZArith Lia Permutation.
Import ListNotations.
Open Scope string_scope.
Open Scope list_scope.

Set Implicit Arguments.

(** ** JavaScript containers *)

(** [Set<string>]: the elements in insertion order, without duplicates. *)
Module JsSet.
Definition t := list string.

Definition empty : t := [].

Definition has (x : string) (s : t) : bool := existsb (String.eqb x) s.

(** [s.add(x)]: appends [x] unless it is already a member. *)
Definition add (x : string) (s : t) : t :=
  if has x s then s else s ++ [x].

(** [s.delete(x)]. *)
Definition delete (x : string) (s : t) : t :=
  filter (fun y => negb (String.eqb x y)) s.

(** [src.forEach(x => dst.add(x))]. *)
Definition addAll (src dst : t) : t :=
  fold_left (fun acc x => add x acc) src dst.

Definition disjoint (a b : t) : Prop := forall x, In x a -> In x b -> False.
End JsSet.

(** [Map<string, V>]: the entries in insertion order, keys unique. *)
Module JsMap.
Definition t (V : Type) := list (string * V).

Definition empty {V} : t V := [].

Fixpoint get {V} (k : string) (m : t V) : option V :=
  match m with
  | [] => None
  | (k', v) :: m' => if String.eqb k k' then Some v else get k m'
  end.

Definition has {V} (k : string) (m : t V) : bool :=
  match get k m with Some _ => true | None => false end.

Definition size {V} (m : t V) : nat := length m.

Definition keys {V} (m : t V) : list string := map fst m.
End JsMap.

(** ** Data model *)

(** [output] of an edge: produced by the transformer, opaque here. *)
Record Output := { code : string; output_type : string }.

(** [DependencyEdge] of [./traverseDependencies]. *)
Module Edge.
Record t := mk {
  path : string;
  dependencies : JsMap.t string;
  inverseDependencies : JsSet.t;
  output : Output
}.
End Edge.

(** [Graph] of [./traverseDependencies]. *)
Module Graph.
Record t := mk {
  dependencies : JsMap.t Edge.t;
  entryPoints : list string
}.
End Graph.

Record DeltaResult := {
  modified : JsMap.t Edge.t;
  deleted : JsSet.t;
  reset : bool
}.

Inductive BundleType := module | script.

(** The [onProgress] callback is only handed on to the engine; it is
    identified by a number. *)
Definition ProgressCallback := nat.

Module Options.
Record t := mk {
  assetPlugins : list string;
  customTransformOptions : list (string * string);
  dev : bool;
  entryPoints : list string;
  hot : bool;
  minify : bool;
  onProgress : option ProgressCallback;
  platform : option string;
  type : BundleType
}.
End Options.

(** [inlineRequires] is a boolean or a blacklist object. *)
Inductive InlineRequires :=
| IRBool (b : bool)
| IRBlacklist (paths : list string).

(** [x || false] on an optional [inlineRequires]. *)
Definition orFalse (x : option InlineRequires) : InlineRequires :=
  match x with
  | None => IRBool false
  | Some (IRBool false) => IRBool false
  | Some v => v
  end.

Module JSTransformerOptions.
Record t := mk {
  assetDataPlugins : list string;
  customTransformOptions : list (string * string);
  enableBabelRCLookup : bool;
  dev : bool;
  hot : bool;
  inlineRequires : InlineRequires;
  minify : bool;
  platform : option string;
  projectRoot : string
}.
End JSTransformerOptions.

(** [{...transformerOptions, type}], the options handed to the engine. *)
Record TraverseOptions := {
  transformerOptions : JSTransformerOptions.t;
  type : BundleType
}.

(** A thrown JavaScript error with the extra fields Metro's errors carry. *)
Module JsError.
Record t := mk {
  name : string;
  message : string;
  type : option string;
  filename : option string;
  lineNumber : option Z
}.
End JsError.

(** A listener registered on the calculator's ['change'] event. *)
Definition Listener := nat.

(** The instance fields of [DeltaCalculator].  [_bundler] and
    [_dependencyGraph] are handles on collaborators and live in the
    [World]; [watching] is the subscription of
    [_handleMultipleFileChanges] to the watcher and [listeners] the
    [EventEmitter] state.  [_currentBuildPromise] is null whenever a call
    modelled here starts (a call that finds a build in flight first awaits
    it) and is null again when it settles, so it is not a field. *)
Record DeltaCalculator := {
  _options : Options.t;
  _transformerOptions : option JSTransformerOptions.t;
  _deletedFiles : JsSet.t;
  _modifiedFiles : JsSet.t;
  _graph : Graph.t;
  watching : bool;
  listeners : list Listener
}.

(** A watcher event [{type, filePath}]. *)
Record FileChange := { change_type : string; filePath : string }.

(** ** Collaborators and the trace *)

(** A call the calculator makes to a collaborator, with its arguments. *)
Inductive Call :=
| CallGetGlobalTransformOptions
| CallGetTransformOptionsForEntryFiles (entryPoints : list string)
| CallInitialTraverseDependencies (graph : Graph.t) (o : TraverseOptions)
| CallTraverseDependencies
    (paths : list string) (o : TraverseOptions) (graph : Graph.t)
| CallReorderGraph (graph : Graph.t)
| EmitChange (notified : list Listener).

(** The calls that reach the traversal engine. *)
Definition isEngineCall (c : Call) : bool :=
  match c with
  | CallInitialTraverseDependencies _ _
  | CallTraverseDependencies _ _ _
  | CallReorderGraph _ => true
  | _ => false
  end.

(** The calls that ask the engine for a partial traversal. *)
Definition isPartialTraversal (c : Call) : bool :=
  match c with
  | CallTraverseDependencies _ _ _ => true
  | _ => false
  end.

(** What the bundler does with a request for the transform options of
    the entry files: it resolves, it rejects, or it calls the
    [getDependencies] callback it was handed on a path and goes on from
    the world it finds then and from what the callback settled with.
    Every step carries the world the bundler left. *)
Inductive BundlerRun (World : Type) : Type :=
| Resolve (w : World) (inlineRequires : option InlineRequires)
| Reject (w : World) (error : JsError.t)
| GetDependencies (w : World) (path : string)
    (next : World -> JsError.t + list string -> BundlerRun World).

Section DeltaCalculator.

(** Everything outside the calculator: the file system, the resolver
    ([_dependencyGraph]), the transformer and the bundler. *)
Variable World : Type.

Record Env := { world : World; trace : list Call }.

Definition log (c : Call) (env : Env) : Env :=
  {| world := world env; trace := trace env ++ [c] |}.

Definition setWorld (w : World) (env : Env) : Env :=
  {| world := w; trace := trace env |}.

(** [this._bundler.getGlobalTransformOptions()]:
    [{enableBabelRCLookup, projectRoot}]. *)
Variable getGlobalTransformOptions : World -> bool * string.

(** [this._bundler.getTransformOptionsForEntryFiles(entryPoints,
    {dev, platform}, getDependencies)]: what the bundler does from the
    world it is called in, up to resolving to the optional
    [inlineRequires] or rejecting. *)
Variable getTransformOptionsForEntryFiles :
  list string -> bool * option string -> World -> BundlerRun World.

(** [initialTraverseDependencies(graph, dependencyGraph, options,
    onProgress)]: mutates [graph], resolves to [added] or rejects. *)
Variable initialTraverseDependencies :
  Graph.t -> TraverseOptions -> option ProgressCallback ->
  World -> World * Graph.t * (JsError.t + JsMap.t Edge.t).

(** [traverseDependencies(paths, dependencyGraph, options, graph,
    onProgress)]: mutates [graph], resolves to [{added, deleted}] or
    rejects. *)
Variable traverseDependencies :
  list string -> TraverseOptions -> Graph.t -> option ProgressCallback ->
  World -> World * Graph.t * (JsError.t + JsMap.t Edge.t * JsSet.t).

(** [reorderGraph(graph)]: rewrites the iteration order of [graph] in
    place. *)
Variable reorderGraph : Graph.t -> Graph.t.

(** ** Field updates *)

Definition setPending (m d : JsSet.t) (this : DeltaCalculator)
  : DeltaCalculator :=
  {| _options := _options this;
     _transformerOptions := _transformerOptions this;
     _deletedFiles := d;
     _modifiedFiles := m;
     _graph := _graph this;
     watching := watching this;
     listeners := listeners this |}.

Definition setGraph (g : Graph.t) (this : DeltaCalculator)
  : DeltaCalculator :=
  {| _options := _options this;
     _transformerOptions := _transformerOptions this;
     _deletedFiles := _deletedFiles this;
     _modifiedFiles := _modifiedFiles this;
     _graph := g;
     watching := watching this;
     listeners := listeners this |}.

Definition setTransformerOptions (o : JSTransformerOptions.t)
  (this : DeltaCalculator) : DeltaCalculator :=
  {| _options := _options this;
     _transformerOptions := Some o;
     _deletedFiles := _deletedFiles this;
     _modifiedFiles := _modifiedFiles this;
     _graph := _graph this;
     watching := watching this;
     listeners := listeners this |}.

(** [{dependencies: new Map(), entryPoints: this._options.entryPoints}]. *)
Definition emptyGraph (options : Options.t) : Graph.t :=
  {| Graph.dependencies := JsMap.empty;
     Graph.entryPoints := Options.entryPoints options |}.

(** ** The class *)

(** [constructor(bundler, dependencyGraph, options)]. *)
Definition new (options : Options.t) : DeltaCalculator :=
  {| _options := options;
     _transformerOptions := None;
     _deletedFiles := JsSet.empty;
     _modifiedFiles := JsSet.empty;
     _graph := emptyGraph options;
     watching := true;
     listeners := [] |}.

(** [on('change', listener)], inherited from [EventEmitter]. *)
Definition on_change (l : Listener) (this : DeltaCalculator)
  : DeltaCalculator :=
  {| _options := _options this;
     _transformerOptions := _transformerOptions this;
     _deletedFiles := _deletedFiles this;
     _modifiedFiles := _modifiedFiles this;
     _graph := _graph this;
     watching := watching this;
     listeners := listeners this ++ [l] |}.

(** [end()]. *)
Definition end_ (this : DeltaCalculator) : DeltaCalculator :=
  {| _options := _options this;
     _transformerOptions := _transformerOptions this;
     _deletedFiles := JsSet.empty;
     _modifiedFiles := JsSet.empty;
     _graph := emptyGraph (_options this);
     watching := false;
     listeners := [] |}.

(** [getGraph()]. *)
Definition getGraph (this : DeltaCalculator) : Graph.t := _graph this.

(** [_handleFileChange({type, filePath})]. *)
Definition _handleFileChange (ev : FileChange) (this : DeltaCalculator)
  (env : Env) : DeltaCalculator * Env :=
  let this :=
    if String.eqb (change_type ev) "delete" then
      setPending (JsSet.delete (filePath ev) (_modifiedFiles this))
                 (JsSet.add (filePath ev) (_deletedFiles this)) this
    else
      setPending (JsSet.add (filePath ev) (_modifiedFiles this))
                 (JsSet.delete (filePath ev) (_deletedFiles this)) this in
  (this, log (EmitChange (listeners this)) env).

(** [_handleMultipleFileChanges({eventsQueue})]. *)
Definition _handleMultipleFileChanges (eventsQueue : list FileChange)
  (this : DeltaCalculator) (env : Env) : DeltaCalculator * Env :=
  fold_left (fun st ev => _handleFileChange ev (fst st) (snd st))
            eventsQueue (this, env).

(** The [transformOptionsForBlacklist] object of
    [_calcTransformerOptions], with the [inlineRequires] it ends up
    with. *)
Definition transformOptionsForBlacklist (this : DeltaCalculator)
  (globalTransformOptions : bool * string) (inlineRequires : InlineRequires)
  : JSTransformerOptions.t :=
  {| JSTransformerOptions.assetDataPlugins :=
       Options.assetPlugins (_options this);
     JSTransformerOptions.customTransformOptions :=
       Options.customTransformOptions (_options this);
     JSTransformerOptions.enableBabelRCLookup := fst globalTransformOptions;
     JSTransformerOptions.dev := Options.dev (_options this);
     JSTransformerOptions.hot := Options.hot (_options this);
     JSTransformerOptions.inlineRequires := inlineRequires;
     JSTransformerOptions.minify := Options.minify (_options this);
     JSTransformerOptions.platform := Options.platform (_options this);
     JSTransformerOptions.projectRoot := snd globalTransformOptions |}.

(** [{...transformOptionsForBlacklist, type}], the options of the initial
    traversal the [getDependencies] callback runs. *)
Definition getDependenciesOptions (this : DeltaCalculator)
  (globalTransformOptions : bool * string) : TraverseOptions :=
  {| transformerOptions :=
       transformOptionsForBlacklist this globalTransformOptions
         (IRBool false);
     type := Options.type (_options this) |}.

(** The bundler run to its end with the [getDependencies] callback of
    [_calcTransformerOptions]: a call on [path] is an initial traversal of
    a fresh graph with the single entry point [path], and settles with
    the keys of what it added or with its error. *)
Fixpoint answerBundler (o : TraverseOptions) (run : BundlerRun World)
  (env : Env) {struct run} : Env * (JsError.t + option InlineRequires) :=
  match run with
  | Resolve w inlineRequires => (setWorld w env, inr inlineRequires)
  | Reject w error => (setWorld w env, inl error)
  | GetDependencies w path next =>
      let graph :=
        {| Graph.dependencies := JsMap.empty;
           Graph.entryPoints := [path] |} in
      let env := log (CallInitialTraverseDependencies graph o) env in
      match initialTraverseDependencies graph o None w with
      | (w, _, inl error) =>
          answerBundler o (next w (inl error)) (setWorld w env)
      | (w, _, inr added) =>
          answerBundler o (next w (inr (JsMap.keys added))) (setWorld w env)
      end
  end.

(** What [_calcTransformerOptions()] is suspended on after its
    synchronous segment: nothing (a script bundle, whose options are
    complete), or the bundler it called. *)
Inductive Derivation :=
| Derived (o : JSTransformerOptions.t)
| AwaitingBundler (globalTransformOptions : bool * string)
    (run : BundlerRun World).

(** [_calcTransformerOptions()], up to its first suspension: the call to
    [getGlobalTransformOptions] and, for a module bundle, the call to
    [getTransformOptionsForEntryFiles]. *)
Definition _calcTransformerOptions_start (this : DeltaCalculator)
  (env : Env) : Env * Derivation :=
  let env := log CallGetGlobalTransformOptions env in
  let globalTransformOptions := getGlobalTransformOptions (world env) in
  match Options.type (_options this) with
  | script =>
      (env,
       Derived (transformOptionsForBlacklist this globalTransformOptions
                  (IRBool false)))
  | module =>
      let env :=
        log (CallGetTransformOptionsForEntryFiles
               (Options.entryPoints (_options this))) env in
      (env,
       AwaitingBundler globalTransformOptions
         (getTransformOptionsForEntryFiles
            (Options.entryPoints (_options this))
            (Options.dev (_options this), Options.platform (_options this))
            (world env)))
  end.

(** [_calcTransformerOptions()], resumed. *)
Definition _calcTransformerOptions_resume (this : DeltaCalculator)
  (derivation : Derivation) (env : Env)
  : Env * (JsError.t + JSTransformerOptions.t) :=
  match derivation with
  | Derived o => (env, inr o)
  | AwaitingBundler globalTransformOptions run =>
      match
        answerBundler (getDependenciesOptions this globalTransformOptions)
          run env
      with
      | (env, inl error) => (env, inl error)
      | (env, inr inlineRequires) =>
          (env,
           inr (transformOptionsForBlacklist this globalTransformOptions
                  (orFalse inlineRequires)))
      end
  end.

(** [_calcTransformerOptions()], run without interruption. *)
Definition _calcTransformerOptions (this : DeltaCalculator) (env : Env)
  : Env * (JsError.t + JSTransformerOptions.t) :=
  let '(env, derivation) := _calcTransformerOptions_start this env in
  _calcTransformerOptions_resume this derivation env.

(** What [getTransformerOptions()] is suspended on after its synchronous
    segment: the memoized options, or a derivation. *)
Inductive OptionsRequest :=
| Memoized (o : JSTransformerOptions.t)
| Deriving (derivation : Derivation).

(** [getTransformerOptions()], up to its first suspension. *)
Definition getTransformerOptions_start (this : DeltaCalculator) (env : Env)
  : Env * OptionsRequest :=
  match _transformerOptions this with
  | Some o => (env, Memoized o)
  | None =>
      let '(env, derivation) := _calcTransformerOptions_start this env in
      (env, Deriving derivation)
  end.

(** [getTransformerOptions()], resumed: a derivation that resolved is
    memoized. *)
Definition getTransformerOptions_resume (request : OptionsRequest)
  (this : DeltaCalculator) (env : Env)
  : DeltaCalculator * Env * (JsError.t + JSTransformerOptions.t) :=
  match request with
  | Memoized o => (this, env, inr o)
  | Deriving derivation =>
      match _calcTransformerOptions_resume this derivation env with
      | (env, inl error) => (this, env, inl error)
      | (env, inr o) => (setTransformerOptions o this, env, inr o)
      end
  end.

(** [getTransformerOptions()], run without interruption. *)
Definition getTransformerOptions (this : DeltaCalculator) (env : Env)
  : DeltaCalculator * Env * (JsError.t + JSTransformerOptions.t) :=
  let '(env, request) := getTransformerOptions_start this env in
  getTransformerOptions_resume request this env.

(** What [_getChangedDependencies] leaves behind when its promise
    settles.  [modifiedFiles] is the set object the caller passed: the
    method adds to it in place and the caller's [catch] reads it again. *)
Record Build := {
  build_this : DeltaCalculator;
  build_env : Env;
  build_modifiedFiles : JsSet.t;
  build_result : JsError.t + DeltaResult
}.

(** The [deletedFiles.forEach] of [_getChangedDependencies]: the
    dependents of every deleted path that has an edge are added to
    [modifiedFiles]. *)
Definition invalidateDeleted (graph : Graph.t)
  (deletedFiles modifiedFiles : JsSet.t) : JsSet.t :=
  fold_left
    (fun modifiedFiles filePath =>
       match JsMap.get filePath (Graph.dependencies graph) with
       | Some edge => JsSet.addAll (Edge.inverseDependencies edge) modifiedFiles
       | None => modifiedFiles
       end)
    deletedFiles modifiedFiles.

(** [Array.from(modifiedFiles).filter(filePath =>
    this._graph.dependencies.has(filePath))]. *)
Definition modifiedDependencies (graph : Graph.t) (modifiedFiles : JsSet.t)
  : list string :=
  filter (fun filePath => JsMap.has filePath (Graph.dependencies graph))
         modifiedFiles.

(** [_getChangedDependencies(modifiedFiles, deletedFiles)], resumed
    after its first suspension, the one on [getTransformerOptions()]. *)
Definition _getChangedDependencies_resume
  (modifiedFiles deletedFiles : JsSet.t) (request : OptionsRequest)
  (this : DeltaCalculator) (env : Env) : Build :=
  match getTransformerOptions_resume request this env with
  | (this, env, inl error) =>
      {| build_this := this; build_env := env;
         build_modifiedFiles := modifiedFiles;
         build_result := inl error |}
  | (this, env, inr o) =>
      let transformerOptions :=
        {| transformerOptions := o;
           type := Options.type (_options this) |} in
      if Nat.eqb (JsMap.size (Graph.dependencies (_graph this))) 0 then
        let env :=
          log (CallInitialTraverseDependencies (_graph this)
                 transformerOptions) env in
        match
          initialTraverseDependencies (_graph this) transformerOptions
            (Options.onProgress (_options this)) (world env)
        with
        | (w, graph, inl error) =>
            {| build_this := setGraph graph this;
               build_env := setWorld w env;
               build_modifiedFiles := modifiedFiles;
               build_result := inl error |}
        | (w, graph, inr added) =>
            {| build_this := setGraph graph this;
               build_env := setWorld w env;
               build_modifiedFiles := modifiedFiles;
               build_result :=
                 inr {| modified := added;
                        deleted := JsSet.empty;
                        reset := true |} |}
        end
      else
        let modifiedFiles :=
          invalidateDeleted (_graph this) deletedFiles modifiedFiles in
        let modifiedDependencies :=
          modifiedDependencies (_graph this) modifiedFiles in
        if Nat.eqb (length modifiedDependencies) 0 then
          {| build_this := this; build_env := env;
             build_modifiedFiles := modifiedFiles;
             build_result :=
               inr {| modified := JsMap.empty;
                      deleted := JsSet.empty;
                      reset := false |} |}
        else
          let env :=
            log (CallTraverseDependencies modifiedDependencies
                   transformerOptions (_graph this)) env in
          match
            traverseDependencies modifiedDependencies transformerOptions
              (_graph this) (Options.onProgress (_options this))
              (world env)
          with
          | (w, graph, inl error) =>
              {| build_this := setGraph graph this;
                 build_env := setWorld w env;
                 build_modifiedFiles := modifiedFiles;
                 build_result := inl error |}
          | (w, graph, inr (added, deleted)) =>
              {| build_this := setGraph graph this;
                 build_env := setWorld w env;
                 build_modifiedFiles := modifiedFiles;
                 build_result :=
                   inr {| modified := added;
                          deleted := deleted;
                          reset := false |} |}
          end
  end.

(** [_getChangedDependencies(modifiedFiles, deletedFiles)], run without
    interruption. *)
Definition _getChangedDependencies (modifiedFiles deletedFiles : JsSet.t)
  (this : DeltaCalculator) (env : Env) : Build :=
  let '(env, request) := getTransformerOptions_start this env in
  _getChangedDependencies_resume modifiedFiles deletedFiles request this env.

(** The build of a [getDelta] during which the watcher events [during]
    are handled: they are handled at the first suspension of
    [_getChangedDependencies], after the calls it made synchronously. *)
Definition buildDuring (during : list FileChange)
  (modifiedFiles deletedFiles : JsSet.t) (this : DeltaCalculator)
  (env : Env) : Build :=
  let '(env, request) := getTransformerOptions_start this env in
  let '(this, env) := _handleMultipleFileChanges during this env in
  _getChangedDependencies_resume modifiedFiles deletedFiles request this env.

(** The [catch] block of [getDelta]: the consumed sets are added back to
    the pending sets and the graph is emptied when its size changed. *)
Definition restoreAfterError (numDependencies : nat)
  (modifiedFiles deletedFiles : JsSet.t) (this : DeltaCalculator)
  : DeltaCalculator :=
  let this :=
    setPending (JsSet.addAll modifiedFiles (_modifiedFiles this))
               (_deletedFiles this) this in
  let this :=
    setPending (_modifiedFiles this)
               (JsSet.addAll deletedFiles (_deletedFiles this)) this in
  if negb (Nat.eqb (JsMap.size (Graph.dependencies (_graph this)))
                   numDependencies)
  then
    setGraph {| Graph.dependencies := JsMap.empty;
                Graph.entryPoints := Graph.entryPoints (_graph this) |}
             this
  else this.

(** [getDelta({reset})], for a call that starts with no build in flight.
    [during] are the watcher events handled while the build promise is
    awaited: the call to [_getChangedDependencies] runs synchronously up
    to its first suspension, the events are handled, and the build is
    resumed.  The events only touch the pending sets and the listeners,
    which the build never reads (see [getChangedDependencies_during]), so
    at which suspension of the build they are handled matters to the
    order of the trace only. *)
Definition getDelta (reset : bool) (during : list FileChange)
  (this : DeltaCalculator) (env : Env)
  : DeltaCalculator * Env * (JsError.t + DeltaResult) :=
  let modifiedFiles := _modifiedFiles this in
  let deletedFiles := _deletedFiles this in
  let this := setPending JsSet.empty JsSet.empty this in
  let '(env, request) := getTransformerOptions_start this env in
  let numDependencies := JsMap.size (Graph.dependencies (_graph this)) in
  let '(this, env) := _handleMultipleFileChanges during this env in
  let build :=
    _getChangedDependencies_resume modifiedFiles deletedFiles request
      this env in
  let this := build_this build in
  let env := build_env build in
  match build_result build with
  | inl error =>
      (restoreAfterError numDependencies (build_modifiedFiles build)
         deletedFiles this,
       env, inl error)
  | inr result =>
      if reset then
        let env := log (CallReorderGraph (_graph this)) env in
        let this := setGraph (reorderGraph (_graph this)) this in
        (this, env,
         inr {| modified := Graph.dependencies (_graph this);
                deleted := JsSet.empty;
                reset := true |})
      else (this, env, inr result)
  end.

(** The states a calculator goes through when it is driven through its
    interface: construction, listener registration, watcher events, delta
    requests, option requests and teardown, each in any state of the
    world. *)
Inductive reachable : DeltaCalculator -> Prop :=
| reach_new (options : Options.t) : reachable (new options)
| reach_on (l : Listener) (this : DeltaCalculator) :
    reachable this -> reachable (on_change l this)
| reach_changes (eventsQueue : list FileChange) (this : DeltaCalculator)
    (env : Env) :
    reachable this ->
    reachable (fst (_handleMultipleFileChanges eventsQueue this env))
| reach_getDelta (reset : bool) (during : list FileChange)
    (this : DeltaCalculator) (env : Env) :
    reachable this ->
    reachable (fst (fst (getDelta reset during this env)))
| reach_getTransformerOptions (this : DeltaCalculator) (env : Env) :
    reachable this ->
    reachable (fst (fst (getTransformerOptions this env)))
| reach_end (this : DeltaCalculator) :
    reachable this -> reachable (end_ this).

(** A calculator with entries in its graph has memoized options. *)
Definition optionsMemoized (this : DeltaCalculator) : Prop :=
  Graph.dependencies (_graph this) <> JsMap.empty ->
  _transformerOptions this <> None.

(** The pending sets are sets: no path is listed twice. *)
Definition pendingWellFormed (this : DeltaCalculator) : Prop :=
  NoDup (_modifiedFiles this) /\ NoDup (_deletedFiles this).

(** The calls appended to the trace between two environments. *)
Definition callsSince (env env' : Env) : list Call :=
  skipn (length (trace env)) (trace env').

(** The calls [getTransformerOptions] makes up to its first suspension:
    none once the options are memoized. *)
Definition startCalls (this : DeltaCalculator) : list Call :=
  match _transformerOptions this with
  | Some _ => []
  | None =>
      CallGetGlobalTransformOptions ::
      match Options.type (_options this) with
      | script => []
      | module =>
          [CallGetTransformOptionsForEntryFiles
             (Options.entryPoints (_options this))]
      end
  end.

(** The initial traversals run for the bundler through the
    [getDependencies] callback. *)
Fixpoint getDependenciesCalls (o : TraverseOptions)
  (run : BundlerRun World) {struct run} : list Call :=
  match run with
  | Resolve _ _ => []
  | Reject _ _ => []
  | GetDependencies w path next =>
      let graph :=
        {| Graph.dependencies := JsMap.empty;
           Graph.entryPoints := [path] |} in
      CallInitialTraverseDependencies graph o ::
      match initialTraverseDependencies graph o None w with
      | (w, _, inl error) => getDependenciesCalls o (next w (inl error))
      | (w, _, inr added) =>
          getDependenciesCalls o (next w (inr (JsMap.keys added)))
      end
  end.

(** The calls [getTransformerOptions] makes when it is resumed. *)
Definition resumeCalls (request : OptionsRequest) (this : DeltaCalculator)
  : list Call :=
  match request with
  | Memoized _ => []
  | Deriving (Derived _) => []
  | Deriving (AwaitingBundler globalTransformOptions run) =>
      getDependenciesCalls
        (getDependenciesOptions this globalTransformOptions) run
  end.

(** A request for the options fits a calculator when it holds what the
    calculator has memoized. *)
Definition requestFor (this : DeltaCalculator) (request : OptionsRequest)
  : Prop :=
  match request with
  | Memoized o => _transformerOptions this = Some o
  | Deriving _ => _transformerOptions this = None
  end.

(** The calls [getTransformerOptions] makes, run without interruption. *)
Definition optionCalls (this : DeltaCalculator) (env : Env) : list Call :=
  startCalls this ++
  resumeCalls (snd (getTransformerOptions_start this env)) this.

(** An initial traversal of a fresh graph with a single entry point, as
    the [getDependencies] callback runs them. *)
Definition isGetDependenciesCall (c : Call) : Prop :=
  exists path o,
    c = CallInitialTraverseDependencies
          {| Graph.dependencies := JsMap.empty;
             Graph.entryPoints := [path] |} o.

(** The call [_getChangedDependencies] makes to the engine once it has
    the transformer options [o]: an initial traversal of an empty graph,
    a partial traversal of the tracked modified paths, or none when there
    is no such path. *)
Definition engineCalls (modifiedFiles deletedFiles : JsSet.t)
  (o : JSTransformerOptions.t) (this : DeltaCalculator) : list Call :=
  let transformerOptions :=
    {| transformerOptions := o; type := Options.type (_options this) |} in
  if Nat.eqb (JsMap.size (Graph.dependencies (_graph this))) 0 then
    [CallInitialTraverseDependencies (_graph this) transformerOptions]
  else
    let paths :=
      modifiedDependencies (_graph this)
        (invalidateDeleted (_graph this) deletedFiles modifiedFiles) in
    if Nat.eqb (length paths) 0 then []
    else [CallTraverseDependencies paths transformerOptions (_graph this)].

(** The ['change'] emissions of a batch of watcher events. *)
Definition emissions (eventsQueue : list FileChange)
  (this : DeltaCalculator) : list Call :=
  map (fun _ => EmitChange (listeners this)) eventsQueue.

End DeltaCalculator.

Arguments Derived {World} o.
Arguments AwaitingBundler {World} globalTransformOptions run.
Arguments Memoized {World} o.
Arguments Deriving {World} derivation.

(** ** The Live Update Server's change handler *)

Module HmrServer.

(** One entry of [errors] in an error body. *)
Record ErrorEntry := {
  description : string;
  filename : option string;
  lineNumber : option Z
}.

(** The body of an [error] message. *)
Record FormattedError := {
  type : option string;
  message : string;
  errors : list ErrorEntry
}.

(** One entry of [modules] in an update body. *)
Record HmrModule := { id : string; code : string }.

(** The body of an [update] message. *)
Record UpdateBody := {
  modules : list HmrModule;
  sourceURLs : list (string * string);
  sourceMappingURLs : list (string * string)
}.

(** A message of the wire protocol; [type] discriminates. *)
Inductive Message :=
| UpdateStart
| Update (body : UpdateBody)
| Error (body : FormattedError)
| UpdateDone.

(** Modelled from the spec: the normalisation of a thrown error
    ([formatBundlingError], not among the sources) into
    [{type, message, errors: [{description, filename, lineNumber}]}], the
    description being the original message and a field the error does not
    carry staying absent. *)
Definition formatBundlingError (error : JsError.t) : FormattedError :=
  {| type := JsError.type error;
     message := JsError.message error;
     errors :=
       [ {| description := JsError.message error;
            filename := JsError.filename error;
            lineNumber := JsError.lineNumber error |} ] |}.

Section Connection.

Variable World : Type.

(** [getDeltaBundler().getDelta(graph, {reset})] of the server the
    connection was opened on. *)
Variable getDelta :
  Graph.t -> bool -> World -> World * (JsError.t + DeltaResult).

(** The pluggable id assignment ([createModuleId]). *)
Variable createModuleId : string -> string.

(** The wrapper that turns an edge's output into a self-registering call
    carrying its id and the ids of its dependencies. *)
Variable wrapModule : (string -> string) -> Edge.t -> string.

(** A connected client: the graph built at connection time and the
    messages handed to its [sendMessage] so far. *)
Record Client := { graph : Graph.t; sent : list Message }.

Definition sendMessage (m : Message) (client : Client) : Client :=
  {| graph := graph client; sent := sent client ++ [m] |}.

(** Modelled from the spec: the response to a change notification
    ([HmrServer._prepareResponse], not among the sources):
    [getDelta({reset: false})], an [update] with one [{id, code}] per
    modified edge on success, an [error] with the normalised error on
    failure. *)
Definition _prepareResponse (client : Client) (w : World)
  : World * Message :=
  match getDelta (graph client) false w with
  | (w, inl error) => (w, Error (formatBundlingError error))
  | (w, inr delta) =>
      (w,
       Update
         {| modules :=
              map (fun edge =>
                     {| id := createModuleId (Edge.path edge);
                        code := wrapModule createModuleId edge |})
                  (map snd (modified delta));
            sourceURLs := [];
            sourceMappingURLs := [] |})
  end.

(** Modelled from the spec: the listener a connection registers for
    change notifications ([HmrServer._handleFileChange], not among the
    sources): [update-start], the response, [update-done]. *)
Definition handleFileChange (client : Client) (w : World)
  : World * Client :=
  let client := sendMessage UpdateStart client in
  let '(w, response) := _prepareResponse client w in
  let client := sendMessage response client in
  let client := sendMessage UpdateDone client in
  (w, client).

End Connection.

End HmrServer.

(** ** A small project

    Entry point [/c] requires [/b].  The world is the state of the
    sources: [0] when every file transforms, [1] when the transformer
    rejects before the engine has touched the graph, [2] when it rejects
    after the engine has added an edge. *)

Module Fixture.

Definition transformError : JsError.t :=
  {| JsError.name := "SyntaxError";
     JsError.message := "test syntax error";
     JsError.type := Some "TransformError";
     JsError.filename := Some "EntryPoint.js";
     JsError.lineNumber := Some 123%Z |}.

Definition options : Options.t :=
  {| Options.assetPlugins := [];
     Options.customTransformOptions := [];
     Options.dev := true;
     Options.entryPoints := ["/c"];
     Options.hot := true;
     Options.minify := false;
     Options.onProgress := None;
     Options.platform := Some "ios";
     Options.type := module |}.

Definition edgeB : Edge.t :=
  {| Edge.path := "/b";
     Edge.dependencies := [];
     Edge.inverseDependencies := ["/c"];
     Edge.output := {| code := "__d(function() { b(); });";
                       output_type := "module" |} |}.

Definition edgeC : Edge.t :=
  {| Edge.path := "/c";
     Edge.dependencies := [("./b", "/b")];
     Edge.inverseDependencies := [];
     Edge.output := {| code := "__d(function() { c(); });";
                       output_type := "module" |} |}.

Definition edgeD : Edge.t :=
  {| Edge.path := "/d";
     Edge.dependencies := [];
     Edge.inverseDependencies := ["/c"];
     Edge.output := {| code := "__d(function() { d(); });";
                       output_type := "module" |} |}.

Definition edges : JsMap.t Edge.t := [("/c", edgeC); ("/b", edgeB)].

Definition getGlobalTransformOptions (w : nat) : bool * string :=
  (false, "/root").

(** The bundler asks for the dependencies of each entry point in turn,
    rejects with the error of a call that rejected, and resolves to no
    [inlineRequires] otherwise. *)
Fixpoint askDependencies (paths : list string) (w : nat) : BundlerRun nat :=
  match paths with
  | [] => Resolve w None
  | path :: paths =>
      GetDependencies w path
        (fun w answer =>
           match answer with
           | inl error => Reject w error
           | inr _ => askDependencies paths w
           end)
  end.

Definition getTransformOptionsForEntryFiles (entryPoints : list string)
  (o : bool * option string) (w : nat) : BundlerRun nat :=
  askDependencies entryPoints w.

Definition initialTraverseDependencies (graph : Graph.t)
  (o : TraverseOptions) (onProgress : option ProgressCallback) (w : nat)
  : nat * Graph.t * (JsError.t + JsMap.t Edge.t) :=
  match w with
  | 0 =>
      (w,
       {| Graph.dependencies := edges;
          Graph.entryPoints := Graph.entryPoints graph |},
       inr edges)
  | 1 => (w, graph, inl transformError)
  | _ =>
      (w,
       {| Graph.dependencies := [("/c", edgeC)];
          Graph.entryPoints := Graph.entryPoints graph |},
       inl transformError)
  end.

Definition traverseDependencies (paths : list string) (o : TraverseOptions)
  (graph : Graph.t) (onProgress : option ProgressCallback) (w : nat)
  : nat * Graph.t * (JsError.t + JsMap.t Edge.t * JsSet.t) :=
  match w with
  | 0 =>
      (w, graph,
       inr (filter (fun entry => JsSet.has (fst entry) paths)
                   (Graph.dependencies graph),
            JsSet.empty))
  | 1 => (w, graph, inl transformError)
  | _ =>
      (w,
       {| Graph.dependencies := Graph.dependencies graph ++ [("/d", edgeD)];
          Graph.entryPoints := Graph.entryPoints graph |},
       inl transformError)
  end.

Definition reorderGraph (graph : Graph.t) : Graph.t :=
  {| Graph.dependencies := rev (Graph.dependencies graph);
     Graph.entryPoints := Graph.entryPoints graph |}.

Definition env (w : nat) : Env nat := {| world := w; trace := [] |}.

Definition getDelta :=
  getDelta getGlobalTransformOptions getTransformOptionsForEntryFiles
    initialTraverseDependencies traverseDependencies reorderGraph.

Definition getTransformerOptions :=
  getTransformerOptions getGlobalTransformOptions
    getTransformOptionsForEntryFiles initialTraverseDependencies.

Definition reachable :=
  reachable getGlobalTransformOptions getTransformOptionsForEntryFiles
    initialTraverseDependencies traverseDependencies reorderGraph.

(** The calculator after its first delta. *)
Definition built : DeltaCalculator :=
  fst (fst (getDelta false [] (new options) (env 0))).

Definition change (path : string) : FileChange :=
  {| change_type := "change"; filePath := path |}.

Definition delete (path : string) : FileChange :=
  {| change_type := "delete"; filePath := path |}.

(** [built] after the watcher reported [eventsQueue]. *)
Definition after (eventsQueue : list FileChange) : DeltaCalculator :=
  fst (_handleMultipleFileChanges eventsQueue built (env 0)).

End Fixture.

(** ** Further vocabulary *)

(** The transformer options [o] carry the fields of the calculator's
    options that [_calcTransformerOptions] copies into them. *)
Definition reflectsOptions (options : Options.t)
  (o : JSTransformerOptions.t) : Prop :=
  JSTransformerOptions.assetDataPlugins o = Options.assetPlugins options /\
  JSTransformerOptions.customTransformOptions o
  = Options.customTransformOptions options /\
  JSTransformerOptions.dev o = Options.dev options /\
  JSTransformerOptions.hot o = Options.hot options /\
  JSTransformerOptions.minify o = Options.minify options /\
  JSTransformerOptions.platform o = Options.platform options.

(** The memoized transformer options, if any, carry the calculator's
    options. *)
Definition optionsReflected (this : DeltaCalculator) : Prop :=
  forall o, _transformerOptions this = Some o ->
            reflectsOptions (_options this) o.

(** The options of the small project, bundled as a script. *)
Definition scriptOptions : Options.t :=
  {| Options.assetPlugins := Options.assetPlugins Fixture.options;
     Options.customTransformOptions :=
       Options.customTransformOptions Fixture.options;
     Options.dev := Options.dev Fixture.options;
     Options.entryPoints := Options.entryPoints Fixture.options;
     Options.hot := Options.hot Fixture.options;
     Options.minify := Options.minify Fixture.options;
     Options.onProgress := Options.onProgress Fixture.options;
     Options.platform := Options.platform Fixture.options;
     Options.type := script |}.

Section Evolution.

Variable World : Type.
Variable getGlobalTransformOptions : World -> bool * string.
Variable getTransformOptionsForEntryFiles :
  list string -> bool * option string -> World -> BundlerRun World.
Variable initialTraverseDependencies :
  Graph.t -> TraverseOptions -> option ProgressCallback ->
  World -> World * Graph.t * (JsError.t + JsMap.t Edge.t).
Variable traverseDependencies :
  list string -> TraverseOptions -> Graph.t -> option ProgressCallback ->
  World -> World * Graph.t * (JsError.t + JsMap.t Edge.t * JsSet.t).
Variable reorderGraph : Graph.t -> Graph.t.

(** The states a calculator can be in after it was in [start]: any number
    of listener registrations, watcher events, delta requests, option
    requests and teardowns, each in any state of the world. *)
Inductive later (start : DeltaCalculator) : DeltaCalculator -> Prop :=
| later_now : later start start
| later_on (l : Listener) (this : DeltaCalculator) :
    later start this -> later start (on_change l this)
| later_changes (eventsQueue : list FileChange) (this : DeltaCalculator)
    (env : Env World) :
    later start this ->
    later start (fst (_handleMultipleFileChanges eventsQueue this env))
| later_getDelta (reset : bool) (during : list FileChange)
    (this : DeltaCalculator) (env : Env World) :
    later start this ->
    later start
      (fst (fst (getDelta getGlobalTransformOptions
                   getTransformOptionsForEntryFiles
                   initialTraverseDependencies traverseDependencies
                   reorderGraph reset during this env)))
| later_getTransformerOptions (this : DeltaCalculator) (env : Env World) :
    later start this ->
    later start
      (fst (fst (getTransformerOptions getGlobalTransformOptions
                   getTransformOptionsForEntryFiles
                   initialTraverseDependencies this env)))
| later_end (this : DeltaCalculator) :
    later start this -> later start (end_ this).

(** The states a calculator goes through when it is driven through its
    interface and no [getDelta] rejects. *)
Inductive reachableWithoutError : DeltaCalculator -> Prop :=
| quiet_new (options : Options.t) : reachableWithoutError (new options)
| quiet_on (l : Listener) (this : DeltaCalculator) :
    reachableWithoutError this -> reachableWithoutError (on_change l this)
| quiet_changes (eventsQueue : list FileChange) (this : DeltaCalculator)
    (env : Env World) :
    reachableWithoutError this ->
    reachableWithoutError
      (fst (_handleMultipleFileChanges eventsQueue this env))
| quiet_getDelta (reset : bool) (during : list FileChange)
    (this this' : DeltaCalculator) (env env' : Env World)
    (result : DeltaResult) :
    reachableWithoutError this ->
    getDelta getGlobalTransformOptions getTransformOptionsForEntryFiles
      initialTraverseDependencies traverseDependencies reorderGraph
      reset during this env
    = (this', env', inr result) ->
    reachableWithoutError this'
| quiet_getTransformerOptions (this : DeltaCalculator) (env : Env World) :
    reachableWithoutError this ->
    reachableWithoutError
      (fst (fst (getTransformerOptions getGlobalTransformOptions
                   getTransformOptionsForEntryFiles
                   initialTraverseDependencies this env)))
| quiet_end (this : DeltaCalculator) :
    reachableWithoutError this -> reachableWithoutError (end_ this).

End Evolution.

(** A bundler that cannot derive the options of the entry files in world
    [3], and answers as that of the small project otherwise. *)
Definition flakyTransformOptionsForEntryFiles (entryPoints : list string)
  (o : bool * option string) (w : nat) : BundlerRun nat :=
  match w with
  | 3 => Reject w Fixture.transformError
  | _ => Fixture.getTransformOptionsForEntryFiles entryPoints o w
  end.
(** ** Facts about the containers *)

Module JsSetFacts.
Import JsSet.

Lemma has_In (x : string) (s : t) : has x s = true <-> In x s.
Proof.
  unfold has. rewrite existsb_exists. split.
  - intros [y [Hy He]]. apply String.eqb_eq in He. now subst.
  - intros H. exists x. split; [assumption | apply String.eqb_refl].
Qed.

Lemma In_add (x y : string) (s : t) : In y (add x s) <-> y = x \/ In y s.
Proof.
  unfold add. destruct (has x s) eqn:E.
  - apply has_In in E. split; [now right | intros [-> | H]; assumption].
  - rewrite in_app_iff. simpl. split.
    + intros [H | [H | []]]; [now right | now left].
    + intros [H | H]; [right; now left | now left].
Qed.

Lemma In_delete (x y : string) (s : t) :
  In y (delete x s) <-> In y s /\ y <> x.
Proof.
  unfold delete. rewrite filter_In, negb_true_iff, String.eqb_neq.
  split; intros [H1 H2]; split; auto.
Qed.

Lemma In_addAll (src dst : t) (y : string) :
  In y (addAll src dst) <-> In y src \/ In y dst.
Proof.
  unfold addAll. revert dst.
  induction src as [| x src IH]; intros dst; simpl.
  - split; [now right | intros [[] | H]; assumption].
  - rewrite IH, In_add. split.
    + intros [H | [H | H]]; auto.
    + intros [[H | H] | H]; auto.
Qed.

Lemma NoDup_add (x : string) (s : t) : NoDup s -> NoDup (add x s).
Proof.
  intros H. unfold add. destruct (has x s) eqn:E; [assumption |].
  assert (Hx : ~ In x s).
  { intros Hin. apply has_In in Hin. congruence. }
  clear E. induction H as [| y s Hy Hs IH]; simpl.
  - constructor; [intros [] | constructor].
  - constructor.
    + rewrite in_app_iff. simpl. intros [Hin | [He | []]].
      * contradiction.
      * subst. apply Hx. now left.
    + apply IH. intros Hin. apply Hx. now right.
Qed.

Lemma NoDup_delete (x : string) (s : t) : NoDup s -> NoDup (delete x s).
Proof. apply NoDup_filter. Qed.

Lemma NoDup_addAll (src dst : t) : NoDup dst -> NoDup (addAll src dst).
Proof.
  unfold addAll. revert dst.
  induction src as [| x src IH]; intros dst H; simpl; [assumption |].
  apply IH. now apply NoDup_add.
Qed.

Lemma addAll_empty (dst : t) : addAll empty dst = dst.
Proof. reflexivity. Qed.
End JsSetFacts.

Module JsMapFacts.
Import JsMap.

Lemma get_In_keys {V} (k : string) (m : t V) (v : V) :
  get k m = Some v -> In k (keys m).
Proof.
  induction m as [| [k' v'] m IH]; simpl; [discriminate |].
  destruct (String.eqb k k') eqn:E.
  - apply String.eqb_eq in E. intros _. now left.
  - intros H. right. now apply IH.
Qed.

Lemma has_In_keys {V} (k : string) (m : t V) :
  has k m = true <-> In k (keys m).
Proof.
  unfold has. split.
  - destruct (get k m) eqn:E; [intros _ | discriminate].
    eapply get_In_keys; eassumption.
  - induction m as [| [k' v'] m IH]; simpl; [intros [] |].
    destruct (String.eqb k k') eqn:E; [reflexivity |].
    intros [H | H]; [| now apply IH].
    apply String.eqb_neq in E. congruence.
Qed.

Lemma size_0 {V} (m : t V) : Nat.eqb (size m) 0 = true <-> m = empty.
Proof.
  destruct m; simpl; split; intros H; try reflexivity; discriminate.
Qed.
End JsMapFacts.

(** ** Facts about the calculator *)

Section DeltaCalculatorFacts.

Variable World : Type.
Variable getGlobalTransformOptions : World -> bool * string.
Variable getTransformOptionsForEntryFiles :
  list string -> bool * option string -> World -> BundlerRun World.
Variable initialTraverseDependencies :
  Graph.t -> TraverseOptions -> option ProgressCallback ->
  World -> World * Graph.t * (JsError.t + JsMap.t Edge.t).
Variable traverseDependencies :
  list string -> TraverseOptions -> Graph.t -> option ProgressCallback ->
  World -> World * Graph.t * (JsError.t + JsMap.t Edge.t * JsSet.t).
Variable reorderGraph : Graph.t -> Graph.t.

Local Abbreviation calcOptions :=
  (_calcTransformerOptions getGlobalTransformOptions
     getTransformOptionsForEntryFiles initialTraverseDependencies).
Local Abbreviation getOptions :=
  (getTransformerOptions getGlobalTransformOptions
     getTransformOptionsForEntryFiles initialTraverseDependencies).
Local Abbreviation startOptions := (getTransformerOptions_start
  getGlobalTransformOptions getTransformOptionsForEntryFiles).
Local Abbreviation resumeOptions := (getTransformerOptions_resume
  initialTraverseDependencies).
Local Abbreviation resumeBuild := (_getChangedDependencies_resume
  initialTraverseDependencies traverseDependencies).
Local Abbreviation buildWhile := (buildDuring getGlobalTransformOptions
  getTransformOptionsForEntryFiles initialTraverseDependencies
  traverseDependencies).
Local Abbreviation optCalls := (optionCalls getGlobalTransformOptions
  getTransformOptionsForEntryFiles initialTraverseDependencies).
Local Abbreviation resCalls := (resumeCalls initialTraverseDependencies).
Local Abbreviation build :=
  (_getChangedDependencies getGlobalTransformOptions
     getTransformOptionsForEntryFiles initialTraverseDependencies
     traverseDependencies).
Local Abbreviation delta :=
  (getDelta getGlobalTransformOptions getTransformOptionsForEntryFiles
     initialTraverseDependencies traverseDependencies reorderGraph).
Local Abbreviation Reachable :=
  (reachable getGlobalTransformOptions getTransformOptionsForEntryFiles
     initialTraverseDependencies traverseDependencies reorderGraph).

Lemma callsSince_app (env env' : Env World) (ext : list Call) :
  trace env' = trace env ++ ext -> callsSince env env' = ext.
Proof.
  intros H. unfold callsSince. rewrite H.
  rewrite skipn_app, skipn_all, Nat.sub_diag. reflexivity.
Qed.

(** *** Watcher events *)

(** A watcher event touches the pending sets and notifies the listeners;
    nothing else. *)
Lemma handleFileChange_frame (ev : FileChange) (this : DeltaCalculator)
  (env : Env World) :
  let st := _handleFileChange ev this env in
  _options (fst st) = _options this /\
  _transformerOptions (fst st) = _transformerOptions this /\
  _graph (fst st) = _graph this /\
  watching (fst st) = watching this /\
  listeners (fst st) = listeners this /\
  world (snd st) = world env /\
  trace (snd st) = trace env ++ [EmitChange (listeners this)].
Proof.
  unfold _handleFileChange.
  destruct (String.eqb (change_type ev) "delete"); simpl; repeat split.
Qed.

Lemma handleMultipleFileChanges_frame (eventsQueue : list FileChange) :
  forall (this : DeltaCalculator) (env : Env World),
  let st := _handleMultipleFileChanges eventsQueue this env in
  _options (fst st) = _options this /\
  _transformerOptions (fst st) = _transformerOptions this /\
  _graph (fst st) = _graph this /\
  watching (fst st) = watching this /\
  listeners (fst st) = listeners this /\
  world (snd st) = world env /\
  trace (snd st) = trace env ++ emissions eventsQueue this.
Proof.
  unfold _handleMultipleFileChanges, emissions.
  induction eventsQueue as [| ev evs IH]; intros this env; simpl.
  - rewrite app_nil_r. repeat split.
  - destruct (handleFileChange_frame ev this env)
      as (H1 & H2 & H3 & H4 & H5 & H6 & H7).
    specialize (IH (fst (_handleFileChange ev this env))
                   (snd (_handleFileChange ev this env))).
    rewrite <- surjective_pairing in IH.
    destruct IH as (I1 & I2 & I3 & I4 & I5 & I6 & I7).
    rewrite I1, I2, I3, I4, I5, I6, I7, H1, H2, H3, H4, H5, H6, H7.
    rewrite <- app_assoc. repeat split.
Qed.

(** The pending sets after a batch of events are determined by the pending
    sets before it. *)
Lemma handleMultipleFileChanges_pending (eventsQueue : list FileChange) :
  forall (this this' : DeltaCalculator) (env env' : Env World),
  _modifiedFiles this = _modifiedFiles this' ->
  _deletedFiles this = _deletedFiles this' ->
  let st := _handleMultipleFileChanges eventsQueue this env in
  let st' := _handleMultipleFileChanges eventsQueue this' env' in
  _modifiedFiles (fst st) = _modifiedFiles (fst st') /\
  _deletedFiles (fst st) = _deletedFiles (fst st').
Proof.
  unfold _handleMultipleFileChanges.
  induction eventsQueue as [| ev evs IH]; intros this this' env env' Hm Hd;
    simpl; [split; assumption |].
  apply IH; unfold _handleFileChange;
    destruct (String.eqb (change_type ev) "delete"); simpl; congruence.
Qed.

(** Every event of a batch leaves its path in one of the pending sets. *)
Lemma handleMultipleFileChanges_records (eventsQueue : list FileChange) :
  forall (this : DeltaCalculator) (env : Env World) (ev : FileChange),
  In ev eventsQueue ->
  let st := _handleMultipleFileChanges eventsQueue this env in
  In (filePath ev) (_modifiedFiles (fst st)) \/
  In (filePath ev) (_deletedFiles (fst st)).
Proof.
  unfold _handleMultipleFileChanges.
  induction eventsQueue as [| ev' evs IH] using rev_ind;
    intros this env ev Hin; [destruct Hin |].
  rewrite fold_left_app. simpl.
  set (st := fold_left _ evs (this, env)).
  apply in_app_iff in Hin. destruct Hin as [Hin | [<- | []]].
  - specialize (IH this env ev Hin). fold st in IH.
    unfold _handleFileChange.
    destruct (String.eqb (change_type ev') "delete"); simpl;
      rewrite JsSetFacts.In_add, JsSetFacts.In_delete;
      destruct (string_dec (filePath ev) (filePath ev')); tauto.
  - unfold _handleFileChange.
    destruct (String.eqb (change_type ev') "delete"); simpl;
      rewrite JsSetFacts.In_add; auto.
Qed.

(** A watcher event keeps the pending sets disjoint and duplicate-free. *)
Lemma handleFileChange_disjoint (ev : FileChange) (this : DeltaCalculator)
  (env : Env World) :
  JsSet.disjoint (_modifiedFiles this) (_deletedFiles this) ->
  let st := _handleFileChange ev this env in
  JsSet.disjoint (_modifiedFiles (fst st)) (_deletedFiles (fst st)).
Proof.
  unfold JsSet.disjoint, _handleFileChange. intros H.
  destruct (String.eqb (change_type ev) "delete"); simpl; intros x;
    rewrite JsSetFacts.In_add, JsSetFacts.In_delete;
    specialize (H x); tauto.
Qed.

Lemma handleMultipleFileChanges_disjoint (eventsQueue : list FileChange) :
  forall (this : DeltaCalculator) (env : Env World),
  JsSet.disjoint (_modifiedFiles this) (_deletedFiles this) ->
  let st := _handleMultipleFileChanges eventsQueue this env in
  JsSet.disjoint (_modifiedFiles (fst st)) (_deletedFiles (fst st)).
Proof.
  unfold _handleMultipleFileChanges.
  induction eventsQueue as [| ev evs IH]; intros this env H; simpl;
    [assumption |].
  specialize (IH (fst (_handleFileChange ev this env))
                 (snd (_handleFileChange ev this env))).
  rewrite <- surjective_pairing in IH.
  apply IH. now apply handleFileChange_disjoint.
Qed.

(** *** Transformer options *)

(** The bundler settles in a world and with an outcome that do not depend
    on the trace, and the calls logged for it are the initial traversals
    its [getDependencies] calls ran. *)
Lemma answerBundler_spec (o : TraverseOptions) (run : BundlerRun World) :
  exists w r, forall env : Env World,
    answerBundler initialTraverseDependencies o run env
    = ({| world := w;
          trace := trace env
                   ++ getDependenciesCalls initialTraverseDependencies o run |},
       r).
Proof.
  induction run as [w ir | w e | w path next IH].
  - exists w, (inr ir). intros env. simpl. unfold setWorld.
    now rewrite app_nil_r.
  - exists w, (inl e). intros env. simpl. unfold setWorld.
    now rewrite app_nil_r.
  - simpl.
    destruct (initialTraverseDependencies _ o None w)
      as [[w1 g1] [e | added]].
    + destruct (IH w1 (inl e)) as (w2 & r & H). exists w2, r.
      intros env. rewrite H. simpl. now rewrite <- app_assoc.
    + destruct (IH w1 (inr (JsMap.keys added))) as (w2 & r & H).
      exists w2, r. intros env. rewrite H. simpl. now rewrite <- app_assoc.
Qed.

(** The calls run for the bundler are initial traversals of fresh graphs
    with a single entry point. *)
Lemma getDependenciesCalls_fresh (o : TraverseOptions)
  (run : BundlerRun World) (c : Call) :
  In c (getDependenciesCalls initialTraverseDependencies o run) ->
  isGetDependenciesCall c.
Proof.
  induction run as [w ir | w e | w path next IH]; simpl.
  - intros [].
  - intros [].
  - intros [<- | H]; [now exists path, o |].
    destruct (initialTraverseDependencies _ o None w)
      as [[w1 g1] [e | added]]; eapply IH; exact H.
Qed.

Lemma getTransformerOptions_start_spec (this : DeltaCalculator)
  (env : Env World) :
  world (fst (startOptions this env)) = world env /\
  trace (fst (startOptions this env)) = trace env ++ startCalls this /\
  requestFor this (snd (startOptions this env)).
Proof.
  unfold getTransformerOptions_start, startCalls, requestFor.
  destruct (_transformerOptions this) as [o |] eqn:O; simpl.
  - now rewrite app_nil_r.
  - unfold _calcTransformerOptions_start.
    destruct (Options.type (_options this)); simpl;
      rewrite <- ?app_assoc; repeat split; assumption.
Qed.

Lemma getTransformerOptions_start_ext (this this' : DeltaCalculator)
  (env env' : Env World) :
  _options this = _options this' ->
  _transformerOptions this = _transformerOptions this' ->
  world env = world env' ->
  snd (startOptions this env) = snd (startOptions this' env') /\
  startCalls this = startCalls this'.
Proof.
  intros Ho Ht Hw.
  unfold getTransformerOptions_start, startCalls,
    _calcTransformerOptions_start, transformOptionsForBlacklist.
  rewrite <- Ht, <- Ho. simpl. rewrite <- Hw.
  destruct (_transformerOptions this); [split; reflexivity |].
  destruct (Options.type (_options this)); split; reflexivity.
Qed.

Lemma getTransformerOptions_resume_spec (request : OptionsRequest World)
  (this : DeltaCalculator) (env : Env World) :
  let r := resumeOptions request this env in
  _options (fst (fst r)) = _options this /\
  _deletedFiles (fst (fst r)) = _deletedFiles this /\
  _modifiedFiles (fst (fst r)) = _modifiedFiles this /\
  _graph (fst (fst r)) = _graph this /\
  watching (fst (fst r)) = watching this /\
  listeners (fst (fst r)) = listeners this /\
  trace (snd (fst r)) = trace env ++ resCalls request this /\
  match snd r with
  | inr o => requestFor this request ->
             _transformerOptions (fst (fst r)) = Some o
  | inl _ => fst (fst r) = this /\ exists d, request = Deriving d
  end.
Proof.
  unfold getTransformerOptions_resume, resumeCalls, requestFor.
  destruct request as [o | [o | g run]]; simpl.
  - rewrite app_nil_r. repeat split. auto.
  - rewrite app_nil_r. repeat split.
  - destruct (answerBundler_spec (getDependenciesOptions this g) run)
      as (w & r & H).
    rewrite H. destruct r as [e | ir]; simpl; repeat split. eauto.
Qed.

Lemma getTransformerOptions_resume_ext (request : OptionsRequest World)
  (this this' : DeltaCalculator) (env env' : Env World) :
  _options this = _options this' ->
  world env = world env' ->
  let r := resumeOptions request this env in
  let r' := resumeOptions request this' env' in
  snd r = snd r' /\
  world (snd (fst r)) = world (snd (fst r')) /\
  resCalls request this = resCalls request this' /\
  (_transformerOptions this = _transformerOptions this' ->
   _transformerOptions (fst (fst r)) = _transformerOptions (fst (fst r'))).
Proof.
  intros Ho Hw.
  unfold getTransformerOptions_resume, resumeCalls,
    _calcTransformerOptions_resume, getDependenciesOptions,
    transformOptionsForBlacklist.
  rewrite <- Ho.
  destruct request as [o | [o | g run]]; simpl; [repeat split; auto .. |].
  match goal with
  | |- context [answerBundler _ ?opts run env] =>
      destruct (answerBundler_spec opts run) as (w & r & H)
  end.
  rewrite !H. destruct r as [e | ir]; simpl; repeat split; auto.
Qed.

(** [getTransformerOptions], run without interruption. *)
Lemma getTransformerOptions_unfold (this : DeltaCalculator)
  (env : Env World) :
  getOptions this env
  = resumeOptions (snd (startOptions this env)) this
      (fst (startOptions this env)).
Proof.
  unfold getTransformerOptions.
  destruct (startOptions this env) as [env1 request]. reflexivity.
Qed.

Lemma getTransformerOptions_spec (this : DeltaCalculator) (env : Env World) :
  let r := getOptions this env in
  _options (fst (fst r)) = _options this /\
  _deletedFiles (fst (fst r)) = _deletedFiles this /\
  _modifiedFiles (fst (fst r)) = _modifiedFiles this /\
  _graph (fst (fst r)) = _graph this /\
  watching (fst (fst r)) = watching this /\
  listeners (fst (fst r)) = listeners this /\
  trace (snd (fst r)) = trace env ++ optCalls this env /\
  match snd r with
  | inr o => _transformerOptions (fst (fst r)) = Some o
  | inl _ => _transformerOptions (fst (fst r)) = None /\
             _transformerOptions this = None
  end.
Proof.
  cbv zeta. rewrite getTransformerOptions_unfold. unfold optionCalls.
  destruct (getTransformerOptions_start_spec this env) as (_ & T & Q).
  destruct (getTransformerOptions_resume_spec (snd (startOptions this env))
              this (fst (startOptions this env)))
    as (H1 & H2 & H3 & H4 & H5 & H6 & H7 & H8).
  rewrite H7, T, <- app_assoc. repeat split; try assumption.
  destruct (snd (resumeOptions _ this _)) as [e | o]; [| auto].
  destruct H8 as (-> & d & D). rewrite D in Q. simpl in Q. auto.
Qed.

(** Memoized options are returned as they are, with no call at all. *)
Lemma getTransformerOptions_memoized (this : DeltaCalculator)
  (env : Env World) (o : JSTransformerOptions.t) :
  _transformerOptions this = Some o ->
  getOptions this env = (this, env, inr o).
Proof.
  intros H. unfold getTransformerOptions, getTransformerOptions_start.
  now rewrite H.
Qed.

(** The options depend on the calculator's options, on the memoized value
    and on the world only. *)
Lemma getTransformerOptions_ext (this this' : DeltaCalculator)
  (env env' : Env World) :
  _options this = _options this' ->
  _transformerOptions this = _transformerOptions this' ->
  world env = world env' ->
  let r := getOptions this env in
  let r' := getOptions this' env' in
  snd r = snd r' /\
  world (snd (fst r)) = world (snd (fst r')) /\
  _transformerOptions (fst (fst r)) = _transformerOptions (fst (fst r')).
Proof.
  intros Ho Ht Hw. cbv zeta. rewrite !getTransformerOptions_unfold.
  destruct (getTransformerOptions_start_ext this this' env env' Ho Ht Hw)
    as (R & _).
  destruct (getTransformerOptions_start_spec this env) as (W & _).
  destruct (getTransformerOptions_start_spec this' env') as (W' & _).
  rewrite <- R.
  destruct (getTransformerOptions_resume_ext (snd (startOptions this env))
              this this' (fst (startOptions this env))
              (fst (startOptions this' env')) Ho) as (A & B & _ & C);
    [congruence |].
  repeat split; auto.
Qed.

(** *** The build *)

Ltac split_build :=
  match goal with
  | |- context [Nat.eqb (JsMap.size ?m) 0] =>
      destruct (Nat.eqb (JsMap.size m) 0) eqn:?
  end;
  [ match goal with
    | |- context [initialTraverseDependencies ?g ?o ?p ?w] =>
        destruct (initialTraverseDependencies g o p w)
          as [[? ?] [? | ?]] eqn:?
    end
  | match goal with
    | |- context [Nat.eqb (length ?l) 0] =>
        destruct (Nat.eqb (length l) 0) eqn:?
    end;
    [ | match goal with
        | |- context [traverseDependencies ?l ?o ?g ?p ?w] =>
            destruct (traverseDependencies l o g p w)
              as [[? ?] [? | [? ?]]] eqn:?
        end ] ].

(** The build, run without interruption. *)
Lemma getChangedDependencies_unfold (m d : JsSet.t)
  (this : DeltaCalculator) (env : Env World) :
  build m d this env
  = resumeBuild m d (snd (startOptions this env)) this
      (fst (startOptions this env)).
Proof.
  unfold _getChangedDependencies.
  destruct (startOptions this env) as [env1 request]. reflexivity.
Qed.

(** The build, interrupted by watcher events at its first suspension. *)
Lemma buildDuring_unfold (during : list FileChange) (m d : JsSet.t)
  (this : DeltaCalculator) (env : Env World) :
  buildWhile during m d this env
  = resumeBuild m d (snd (startOptions this env))
      (fst (_handleMultipleFileChanges during this
              (fst (startOptions this env))))
      (snd (_handleMultipleFileChanges during this
              (fst (startOptions this env)))).
Proof.
  unfold buildDuring.
  destruct (startOptions this env) as [env1 request]. simpl.
  destruct (_handleMultipleFileChanges during this env1). reflexivity.
Qed.

(** The resumed build writes the graph and the memoized options; the
    pending sets, the options and the listeners are as they were. *)
Lemma getChangedDependencies_resume_frame (m d : JsSet.t)
  (request : OptionsRequest World) (this : DeltaCalculator)
  (env : Env World) :
  let b := resumeBuild m d request this env in
  _options (build_this b) = _options this /\
  _deletedFiles (build_this b) = _deletedFiles this /\
  _modifiedFiles (build_this b) = _modifiedFiles this /\
  watching (build_this b) = watching this /\
  listeners (build_this b) = listeners this.
Proof.
  unfold _getChangedDependencies_resume.
  pose proof (getTransformerOptions_resume_spec request this env) as H.
  destruct (resumeOptions request this env) as [[this1 env1] [e | o]];
    simpl in H; destruct H as (H1 & H2 & H3 & H4 & H5 & H6 & _).
  - simpl. repeat split; assumption.
  - split_build; simpl; repeat split; assumption.
Qed.

(** The resumed build reads the options, the graph and the world, and
    nothing else of the calculator. *)
Lemma getChangedDependencies_resume_ext (m d : JsSet.t)
  (request : OptionsRequest World) (this this' : DeltaCalculator)
  (env env' : Env World) :
  _options this = _options this' ->
  _transformerOptions this = _transformerOptions this' ->
  _graph this = _graph this' ->
  world env = world env' ->
  let b := resumeBuild m d request this env in
  let b' := resumeBuild m d request this' env' in
  build_result b = build_result b' /\
  build_modifiedFiles b = build_modifiedFiles b' /\
  _graph (build_this b) = _graph (build_this b') /\
  _transformerOptions (build_this b) = _transformerOptions (build_this b') /\
  world (build_env b) = world (build_env b') /\
  exists calls,
    trace (build_env b) = trace env ++ calls /\
    trace (build_env b') = trace env' ++ calls.
Proof.
  intros Ho Ht Hg Hw. unfold _getChangedDependencies_resume.
  pose proof (getTransformerOptions_resume_spec request this env) as H.
  pose proof (getTransformerOptions_resume_spec request this' env') as H'.
  pose proof (getTransformerOptions_resume_ext request this this' env env'
                Ho Hw) as X.
  destruct (resumeOptions request this env) as [[this1 env1] r].
  destruct (resumeOptions request this' env') as [[this1' env1'] r'].
  simpl in H, H', X.
  destruct X as (<- & Xw & Hc & Xt). specialize (Xt Ht).
  destruct H as (H1 & _ & _ & H4 & _ & _ & H7 & _).
  destruct H' as (H1' & _ & _ & H4' & _ & _ & H7' & _).
  assert (Hg1 : _graph this1 = _graph this1') by congruence.
  assert (Ho1 : _options this1 = _options this1') by congruence.
  rewrite <- Hc in H7'.
  destruct r as [e | o].
  - simpl. repeat split; try assumption.
    exists (resCalls request this). split; assumption.
  - rewrite <- Hg1, <- Ho1. unfold log. simpl. rewrite <- Xw.
    split_build; simpl; repeat split; try assumption;
      try (eexists; rewrite H7, H7', <- !app_assoc; split; reflexivity).
    exists (resCalls request this). split; assumption.
Qed.

(** The build writes the graph and the memoized options; the pending
    sets, the options and the listeners are as they were. *)
Lemma getChangedDependencies_frame (m d : JsSet.t) (this : DeltaCalculator)
  (env : Env World) :
  let b := build m d this env in
  _options (build_this b) = _options this /\
  _deletedFiles (build_this b) = _deletedFiles this /\
  _modifiedFiles (build_this b) = _modifiedFiles this /\
  watching (build_this b) = watching this /\
  listeners (build_this b) = listeners this.
Proof.
  cbv zeta. rewrite getChangedDependencies_unfold.
  apply getChangedDependencies_resume_frame.
Qed.

(** Watcher events handled while the build is in flight do not change what
    the build does. *)
Lemma getChangedDependencies_during (during : list FileChange)
  (m d : JsSet.t) (this : DeltaCalculator) (env : Env World) :
  let st := _handleMultipleFileChanges during this env in
  let b := buildWhile during m d this env in
  let b0 := build m d this env in
  build_result b = build_result b0 /\
  build_modifiedFiles b = build_modifiedFiles b0 /\
  _graph (build_this b) = _graph (build_this b0) /\
  _transformerOptions (build_this b)
    = _transformerOptions (build_this b0) /\
  world (build_env b) = world (build_env b0) /\
  _modifiedFiles (build_this b) = _modifiedFiles (fst st) /\
  _deletedFiles (build_this b) = _deletedFiles (fst st).
Proof.
  intros st b b0. subst b b0.
  rewrite buildDuring_unfold, getChangedDependencies_unfold.
  set (env1 := fst (startOptions this env)).
  set (request := snd (startOptions this env)).
  destruct (handleMultipleFileChanges_frame during this env1)
    as (F1 & F2 & F3 & _ & _ & F6 & _).
  destruct (handleMultipleFileChanges_pending during this this env1 env
              eq_refl eq_refl) as (P1 & P2).
  fold st in P1, P2.
  set (st1 := _handleMultipleFileChanges during this env1) in *.
  destruct (getChangedDependencies_resume_ext m d request (fst st1) this
              (snd st1) env1 F1 F2 F3 F6) as (E1 & E2 & E3 & E4 & E5 & _).
  destruct (getChangedDependencies_resume_frame m d request (fst st1)
              (snd st1)) as (_ & G2 & G3 & _).
  repeat split; try assumption; congruence.
Qed.

(** *** The catch block *)

Lemma restoreAfterError_modified (n : nat) (m d : JsSet.t)
  (this : DeltaCalculator) :
  _modifiedFiles (restoreAfterError n m d this)
  = JsSet.addAll m (_modifiedFiles this).
Proof.
  unfold restoreAfterError. simpl.
  destruct (negb _); reflexivity.
Qed.

Lemma restoreAfterError_deleted (n : nat) (m d : JsSet.t)
  (this : DeltaCalculator) :
  _deletedFiles (restoreAfterError n m d this)
  = JsSet.addAll d (_deletedFiles this).
Proof.
  unfold restoreAfterError. simpl.
  destruct (negb _); reflexivity.
Qed.

Lemma restoreAfterError_graph (n : nat) (m d : JsSet.t)
  (this : DeltaCalculator) :
  _graph (restoreAfterError n m d this)
  = if Nat.eqb (JsMap.size (Graph.dependencies (_graph this))) n
    then _graph this
    else {| Graph.dependencies := JsMap.empty;
            Graph.entryPoints := Graph.entryPoints (_graph this) |}.
Proof.
  unfold restoreAfterError. simpl.
  destruct (Nat.eqb _ n); reflexivity.
Qed.

Lemma restoreAfterError_transformerOptions (n : nat) (m d : JsSet.t)
  (this : DeltaCalculator) :
  _transformerOptions (restoreAfterError n m d this)
  = _transformerOptions this.
Proof.
  unfold restoreAfterError. simpl.
  destruct (negb _); reflexivity.
Qed.

(** The paths added for the deleted files are the dependents of the
    deleted paths that have an edge. *)
Lemma In_invalidateDeleted (graph : Graph.t) (d : JsSet.t) :
  forall (m : JsSet.t) (p : string),
  In p (invalidateDeleted graph d m) <->
  In p m \/
  exists filePath edge,
    In filePath d /\
    JsMap.get filePath (Graph.dependencies graph) = Some edge /\
    In p (Edge.inverseDependencies edge).
Proof.
  unfold invalidateDeleted.
  induction d as [| x d IH]; intros m p; simpl.
  - split; [now left | intros [H | (f & e & [] & _)]; assumption].
  - rewrite IH. clear IH.
    destruct (JsMap.get x (Graph.dependencies graph)) as [edge |] eqn:E.
    + rewrite JsSetFacts.In_addAll. split.
      * intros [[H | H] | (f & e & H1 & H2 & H3)].
        -- right. exists x, edge. auto.
        -- now left.
        -- right. exists f, e. auto.
      * intros [H | (f & e & [<- | H1] & H2 & H3)].
        -- left. now right.
        -- left. left. congruence.
        -- right. exists f, e. auto.
    + split.
      * intros [H | (f & e & H1 & H2 & H3)]; [now left |].
        right. exists f, e. auto.
      * intros [H | (f & e & [<- | H1] & H2 & H3)]; [now left | congruence |].
        right. exists f, e. auto.
Qed.

(** The set the build leaves in [modifiedFiles] contains the set it was
    given. *)
Lemma getChangedDependencies_resume_modifiedFiles (m d : JsSet.t)
  (request : OptionsRequest World) (this : DeltaCalculator)
  (env : Env World) (p : string) :
  In p m -> In p (build_modifiedFiles (resumeBuild m d request this env)).
Proof.
  intros Hp. unfold _getChangedDependencies_resume.
  destruct (resumeOptions request this env) as [[this1 env1] [e | o]];
    simpl; [assumption |].
  split_build; simpl; try assumption;
    apply In_invalidateDeleted; now left.
Qed.

Lemma getChangedDependencies_modifiedFiles (during : list FileChange)
  (m d : JsSet.t) (this : DeltaCalculator) (env : Env World) (p : string) :
  In p m -> In p (build_modifiedFiles (buildWhile during m d this env)).
Proof.
  rewrite buildDuring_unfold.
  apply getChangedDependencies_resume_modifiedFiles.
Qed.

(** The calls of a build: those of the option derivation, then the one
    to the engine. *)
Lemma getChangedDependencies_resume_trace (m d : JsSet.t)
  (request : OptionsRequest World) (this : DeltaCalculator)
  (env : Env World) :
  trace (build_env (resumeBuild m d request this env)) =
  trace env ++ resCalls request this ++
  match snd (resumeOptions request this env) with
  | inl _ => []
  | inr o => engineCalls m d o this
  end.
Proof.
  unfold _getChangedDependencies_resume, engineCalls.
  pose proof (getTransformerOptions_resume_spec request this env) as H.
  destruct (resumeOptions request this env) as [[this1 env1] [e | o]];
    simpl in H; destruct H as (H1 & _ & _ & H4 & _ & _ & H7 & _); simpl.
  - now rewrite app_nil_r.
  - rewrite H4, H1.
    split_build; simpl; rewrite H7, <- ?app_assoc, ?app_nil_r; reflexivity.
Qed.

(** A build that resolves on a graph with entries and with tracked
    modified paths returns what the partial traversal of these paths
    resolved to. *)
Lemma getChangedDependencies_partial (m d : JsSet.t)
  (this : DeltaCalculator) (env : Env World) (result : DeltaResult) :
  let b := build m d this env in
  let paths :=
    modifiedDependencies (_graph this)
      (invalidateDeleted (_graph this) d m) in
  Graph.dependencies (_graph this) <> JsMap.empty ->
  paths <> [] ->
  build_result b = inr result ->
  exists o w,
    snd (getOptions this env) = inr o /\
    traverseDependencies paths
      {| transformerOptions := o; type := Options.type (_options this) |}
      (_graph this) (Options.onProgress (_options this))
      (world (snd (fst (getOptions this env))))
    = (w, _graph (build_this b), inr (modified result, deleted result)) /\
    reset result = false.
Proof.
  intros b paths Hne Hp. subst b paths. revert Hp.
  rewrite ?getChangedDependencies_unfold.
  unfold _getChangedDependencies_resume.
  pose proof (getTransformerOptions_spec this env) as H. cbv zeta in H.
  rewrite ?getTransformerOptions_unfold in *.
  destruct (resumeOptions _ this _) as [[this1 env1] [e | o]]; simpl in H;
    destruct H as (H1 & _ & _ & H4 & _); simpl; [discriminate |].
  rewrite H4, H1. split_build; simpl; intros Hp R; try discriminate.
  - match goal with
    | E : Nat.eqb (JsMap.size _) 0 = true |- _ =>
        apply JsMapFacts.size_0 in E; contradiction
    end.
  - match goal with
    | E : Nat.eqb (length _) 0 = true |- _ =>
        apply Nat.eqb_eq, length_zero_iff_nil in E; contradiction
    end.
  - injection R as <-. simpl. eexists _, _. repeat split. eassumption.
Qed.

(** A build that resolves on an empty graph returns what the initial
    traversal resolved to, and leaves the consumed set as it was. *)
Lemma getChangedDependencies_initial (m d : JsSet.t)
  (this : DeltaCalculator) (env : Env World) (result : DeltaResult) :
  let b := build m d this env in
  Graph.dependencies (_graph this) = JsMap.empty ->
  build_result b = inr result ->
  exists o w,
    snd (getOptions this env) = inr o /\
    initialTraverseDependencies (_graph this)
      {| transformerOptions := o; type := Options.type (_options this) |}
      (Options.onProgress (_options this))
      (world (snd (fst (getOptions this env))))
    = (w, _graph (build_this b), inr (modified result)) /\
    deleted result = JsSet.empty /\
    reset result = true /\
    build_modifiedFiles b = m.
Proof.
  intros b He. subst b.
  rewrite ?getChangedDependencies_unfold.
  unfold _getChangedDependencies_resume.
  pose proof (getTransformerOptions_spec this env) as H. cbv zeta in H.
  rewrite ?getTransformerOptions_unfold in *.
  destruct (resumeOptions _ this _) as [[this1 env1] [e | o]]; simpl in H;
    destruct H as (H1 & _ & _ & H4 & _); simpl; [discriminate |].
  rewrite H4, H1, He. simpl.
  destruct (initialTraverseDependencies _ _ _ _) as [[w g] [e | added]]
    eqn:I; simpl; intros R; [discriminate |].
  injection R as <-. simpl. simpl in I. eexists _, _. repeat split.
  exact I.
Qed.

(** A build on a graph with entries and no tracked modified path resolves
    to the empty delta as soon as it has the options, and leaves the
    graph alone. *)
Lemma getChangedDependencies_unchanged (m d : JsSet.t)
  (this : DeltaCalculator) (env : Env World) (o : JSTransformerOptions.t) :
  let b := build m d this env in
  Graph.dependencies (_graph this) <> JsMap.empty ->
  modifiedDependencies (_graph this) (invalidateDeleted (_graph this) d m)
  = [] ->
  snd (getOptions this env) = inr o ->
  build_result b
  = inr {| modified := JsMap.empty; deleted := JsSet.empty; reset := false |}
  /\ _graph (build_this b) = _graph this.
Proof.
  intros b Hne Hp. subst b.
  rewrite ?getChangedDependencies_unfold.
  unfold _getChangedDependencies_resume.
  pose proof (getTransformerOptions_spec this env) as H. cbv zeta in H.
  rewrite ?getTransformerOptions_unfold in *.
  destruct (resumeOptions _ this _) as [[this1 env1] [e | o1]]; simpl in H;
    destruct H as (H1 & _ & _ & H4 & _); simpl; [discriminate |].
  intros _. rewrite H4, H1, Hp. simpl.
  destruct (Nat.eqb (JsMap.size _) 0) eqn:E.
  - apply JsMapFacts.size_0 in E. contradiction.
  - simpl. split; [reflexivity | assumption].
Qed.

(** *** [getDelta] *)

(** [getDelta] in terms of the build it awaits. *)
Lemma getDelta_eq (reset : bool) (during : list FileChange)
  (this : DeltaCalculator) (env : Env World) :
  delta reset during this env =
  let b :=
    buildWhile during (_modifiedFiles this) (_deletedFiles this)
      (setPending JsSet.empty JsSet.empty this) env in
  match build_result b with
  | inl error =>
      (restoreAfterError
         (JsMap.size (Graph.dependencies (_graph this)))
         (build_modifiedFiles b) (_deletedFiles this) (build_this b),
       build_env b, inl error)
  | inr result =>
      if reset then
        (setGraph (reorderGraph (_graph (build_this b))) (build_this b),
         log (CallReorderGraph (_graph (build_this b))) (build_env b),
         inr {| modified :=
                  Graph.dependencies (reorderGraph (_graph (build_this b)));
                deleted := JsSet.empty;
                reset := true |})
      else (build_this b, build_env b, inr result)
  end.
Proof.
  unfold getDelta, buildDuring. simpl.
  destruct (startOptions _ env) as [env1 request].
  destruct (_handleMultipleFileChanges during _ env1) as [this1 env2].
  reflexivity.
Qed.

(** Without watcher events the build of a [getDelta] runs without
    interruption. *)
Lemma buildDuring_nil (m d : JsSet.t) (this : DeltaCalculator)
  (env : Env World) :
  buildWhile [] m d this env = build m d this env.
Proof.
  unfold buildDuring, _getChangedDependencies.
  destruct (startOptions this env) as [env1 request]. reflexivity.
Qed.

(** C4. [getDelta] empties both pending sets before the build starts, so
    the watcher events handled while the build is in flight go to the new
    sets only: the delta and the graph are those of the same call without
    the events, every such event is in the pending sets when the call
    settles, and after a successful call the pending sets are exactly the
    events applied to empty sets. *)
Theorem getDelta_swaps_before_build :
  forall (reset : bool) (during : list FileChange)
         (this : DeltaCalculator) (env : Env World),
  let fresh := setPending JsSet.empty JsSet.empty this in
  let queued := fst (_handleMultipleFileChanges during fresh env) in
  let r := delta reset during this env in
  let r0 := delta reset [] this env in
  (_modifiedFiles fresh = JsSet.empty /\ _deletedFiles fresh = JsSet.empty) /\
  (snd r = snd r0 /\ _graph (fst (fst r)) = _graph (fst (fst r0))) /\
  (forall p, In p (_modifiedFiles queued) ->
             In p (_modifiedFiles (fst (fst r)))) /\
  (forall p, In p (_deletedFiles queued) ->
             In p (_deletedFiles (fst (fst r)))) /\
  (forall result, snd r = inr result ->
     _modifiedFiles (fst (fst r)) = _modifiedFiles queued /\
     _deletedFiles (fst (fst r)) = _deletedFiles queued) /\
  (forall ev, In ev during ->
     In (filePath ev) (_modifiedFiles (fst (fst r))) \/
     In (filePath ev) (_deletedFiles (fst (fst r)))).
Proof.
  intros reset during this env fresh queued r r0.
  assert (Hq :
    (forall p, In p (_modifiedFiles queued) ->
               In p (_modifiedFiles (fst (fst r)))) /\
    (forall p, In p (_deletedFiles queued) ->
               In p (_deletedFiles (fst (fst r)))) /\
    (forall result, snd r = inr result ->
       _modifiedFiles (fst (fst r)) = _modifiedFiles queued /\
       _deletedFiles (fst (fst r)) = _deletedFiles queued) /\
    snd r = snd r0 /\ _graph (fst (fst r)) = _graph (fst (fst r0))).
  { subst r r0. rewrite !getDelta_eq. cbv zeta.
    fold fresh. rewrite buildDuring_nil.
    destruct (getChangedDependencies_during during (_modifiedFiles this)
                (_deletedFiles this) fresh env)
      as (E1 & E2 & E3 & _ & _ & E6 & E7).
    set (b := buildWhile _ _ _ _ _) in *.
    set (b0 := build _ _ fresh env) in *.
    rewrite <- E1.
    destruct (build_result b) as [error | result]; simpl.
    - rewrite restoreAfterError_modified, restoreAfterError_deleted,
        !restoreAfterError_graph, E2, E3, E6, E7.
      repeat split; try discriminate; try reflexivity;
        intros p Hp; apply JsSetFacts.In_addAll; now right.
    - destruct reset; simpl; rewrite ?E3, E6, E7;
        repeat split; intros; assumption. }
  destruct Hq as (Q1 & Q2 & Q3 & Q4 & Q5).
  split; [split; reflexivity |].
  split; [split; assumption |].
  split; [assumption |]. split; [assumption |]. split; [assumption |].
  intros ev Hev.
  destruct (handleMultipleFileChanges_records during fresh env ev Hev)
    as [H | H]; [left; now apply Q1 | right; now apply Q2].
Qed.

(** C3. When the build rejects, every path of the consumed modified set
    and every path of the consumed deleted set is in the corresponding
    pending set of the state the error is re-raised in. *)
Theorem getDelta_error_restores_pending :
  forall (reset : bool) (during : list FileChange)
         (this this' : DeltaCalculator) (env env' : Env World)
         (error : JsError.t),
  delta reset during this env = (this', env', inl error) ->
  (forall p, In p (_modifiedFiles this) -> In p (_modifiedFiles this')) /\
  (forall p, In p (_deletedFiles this) -> In p (_deletedFiles this')).
Proof.
  intros reset during this this' env env' error H.
  rewrite getDelta_eq in H. cbv zeta in H.
  set (b := buildWhile _ _ _ _ _) in H.
  destruct (build_result b) as [e | result];
    [| destruct reset; discriminate].
  injection H as <- _ _.
  rewrite restoreAfterError_modified, restoreAfterError_deleted.
  split; intros p Hp; apply JsSetFacts.In_addAll; left; [| assumption].
  now apply getChangedDependencies_modifiedFiles.
Qed.

(** C2. When the build rejects, the graph whose number of entries differs
    from the number recorded before the build has its [dependencies]
    replaced by an empty map, and the graph whose number of entries is the
    recorded one is left as the failed build left it. *)
Theorem getDelta_error_resets_graph :
  forall (reset : bool) (during : list FileChange)
         (this this' : DeltaCalculator) (env env' : Env World)
         (error : JsError.t),
  delta reset during this env = (this', env', inl error) ->
  let b :=
    build (_modifiedFiles this) (_deletedFiles this)
      (setPending JsSet.empty JsSet.empty this) env in
  let failed := _graph (build_this b) in
  let numDependencies := JsMap.size (Graph.dependencies (_graph this)) in
  build_result b = inl error /\
  (JsMap.size (Graph.dependencies failed) <> numDependencies ->
   _graph this' =
   {| Graph.dependencies := JsMap.empty;
      Graph.entryPoints := Graph.entryPoints failed |}) /\
  (JsMap.size (Graph.dependencies failed) = numDependencies ->
   _graph this' = failed).
Proof.
  intros reset during this this' env env' error H b failed numDependencies.
  rewrite getDelta_eq in H. cbv zeta in H.
  destruct (getChangedDependencies_during during (_modifiedFiles this)
              (_deletedFiles this)
              (setPending JsSet.empty JsSet.empty this) env)
    as (E1 & _ & E3 & _).
  fold b in E1, E3.
  set (b1 := buildWhile _ _ _ _ _) in *.
  destruct (build_result b1) as [e | result] eqn:R;
    [| destruct reset; discriminate].
  injection H as <- _ <-.
  rewrite restoreAfterError_graph, E3. fold failed numDependencies.
  split; [congruence |].
  destruct (Nat.eqb_spec (JsMap.size (Graph.dependencies failed))
                         numDependencies); split; intros; congruence.
Qed.

(** C5. A [getDelta({reset: true})] that resolves returns [reset = true],
    an empty [deleted] and, as [modified], the [dependencies] of the graph
    after [reorderGraph] was applied to the graph the build left; the
    result of the build is not part of it. *)
Theorem getDelta_reset_returns_reordered_graph :
  forall (during : list FileChange) (this this' : DeltaCalculator)
         (env env' : Env World) (result : DeltaResult),
  delta true during this env = (this', env', inr result) ->
  let b :=
    build (_modifiedFiles this) (_deletedFiles this)
      (setPending JsSet.empty JsSet.empty this) env in
  let built := _graph (build_this b) in
  reset result = true /\
  deleted result = JsSet.empty /\
  modified result = Graph.dependencies (reorderGraph built) /\
  _graph this' = reorderGraph built /\
  exists calls, trace env' = calls ++ [CallReorderGraph built].
Proof.
  intros during this this' env env' result H b built.
  rewrite getDelta_eq in H. cbv zeta in H.
  destruct (getChangedDependencies_during during (_modifiedFiles this)
              (_deletedFiles this)
              (setPending JsSet.empty JsSet.empty this) env)
    as (_ & _ & E3 & _).
  fold b in E3.
  set (b1 := buildWhile _ _ _ _ _) in *.
  destruct (build_result b1) as [e | r]; [discriminate |].
  injection H as <- <- <-. simpl. rewrite E3. fold built.
  repeat split. eexists. reflexivity.
Qed.

(** The calls of a [getDelta]: those [getTransformerOptions] makes
    before it suspends, the emissions of the events handled meanwhile,
    the calls of the resumed build and, for a reset delta, the
    reordering. *)
Lemma getDelta_trace (reset : bool) (during : list FileChange)
  (this : DeltaCalculator) (env : Env World) :
  let r := delta reset during this env in
  let b :=
    build (_modifiedFiles this) (_deletedFiles this)
      (setPending JsSet.empty JsSet.empty this) env in
  callsSince env (snd (fst r)) =
  startCalls this ++ emissions during this ++
  resCalls (snd (startOptions this env)) this ++
  match snd (getOptions this env) with
  | inl _ => []
  | inr o => engineCalls (_modifiedFiles this) (_deletedFiles this) o this
  end ++
  match build_result b with
  | inl _ => []
  | inr _ =>
      if reset then [CallReorderGraph (_graph (build_this b))] else []
  end.
Proof.
  intros r b. apply callsSince_app. subst r.
  rewrite getDelta_eq. cbv zeta.
  set (fresh := setPending JsSet.empty JsSet.empty this) in *.
  destruct (getChangedDependencies_during during (_modifiedFiles this)
              (_deletedFiles this) fresh env) as (E1 & _ & E3 & _).
  fold b in E1, E3.
  assert (T : trace (build_env
                (buildWhile during (_modifiedFiles this)
                   (_deletedFiles this) fresh env))
              = trace env ++ startCalls this ++ emissions during this ++
                resCalls (snd (startOptions this env)) this ++
                match snd (getOptions this env) with
                | inl _ => []
                | inr o =>
                    engineCalls (_modifiedFiles this) (_deletedFiles this)
                      o this
                end).
  { rewrite buildDuring_unfold, getChangedDependencies_resume_trace.
    change (startOptions fresh env) with (startOptions this env).
    set (env1 := fst (startOptions this env)).
    set (request := snd (startOptions this env)).
    destruct (getTransformerOptions_start_spec this env) as (W & S & _).
    fold env1 in W, S.
    destruct (handleMultipleFileChanges_frame during fresh env1)
      as (F1 & F2 & F3 & _ & _ & F6 & F7).
    set (st1 := _handleMultipleFileChanges during fresh env1) in *.
    destruct (getTransformerOptions_resume_ext request (fst st1) this
                (snd st1) env1 F1 F6) as (X & _ & C & _).
    rewrite getTransformerOptions_unfold. fold env1 request.
    rewrite X, C, F7, S.
    change (emissions during fresh) with (emissions during this).
    rewrite <- ?app_assoc. do 4 f_equal.
    destruct (snd (resumeOptions request this env1)); [reflexivity |].
    unfold engineCalls. rewrite F1, F3. reflexivity. }
  set (b1 := buildWhile _ _ _ _ _) in *.
  rewrite <- E1, <- E3.
  destruct (build_result b1) as [e | result]; simpl.
  - rewrite T, ?app_nil_r. reflexivity.
  - destruct reset; simpl; rewrite T, ?app_nil_r, <- ?app_assoc;
      reflexivity.
Qed.

(** The calls of the option derivation are calls to the bundler and the
    initial traversals its [getDependencies] calls ran. *)
Lemma startCalls_not_engine (this : DeltaCalculator) (c : Call) :
  In c (startCalls this) -> isEngineCall c = false.
Proof.
  unfold startCalls.
  destruct (_transformerOptions this); [intros [] |].
  destruct (Options.type (_options this)); simpl;
    intros H; repeat (destruct H as [<- | H]; [reflexivity |]);
    destruct H.
Qed.

Lemma resumeCalls_fresh (request : OptionsRequest World)
  (this : DeltaCalculator) (c : Call) :
  In c (resCalls request this) -> isGetDependenciesCall c.
Proof.
  unfold resumeCalls. destruct request as [o | [o | g run]];
    try (intros []).
  apply getDependenciesCalls_fresh.
Qed.

Lemma resumeCalls_requestFor (request : OptionsRequest World)
  (this : DeltaCalculator) (o : JSTransformerOptions.t) :
  requestFor this request -> _transformerOptions this = Some o ->
  resCalls request this = [].
Proof.
  unfold requestFor. destruct request as [o' | d]; [reflexivity |].
  congruence.
Qed.

Lemma emissions_not_engine (evs : list FileChange)
  (this : DeltaCalculator) (c : Call) :
  In c (emissions evs this) -> isEngineCall c = false.
Proof.
  unfold emissions. rewrite in_map_iff. intros (ev & <- & _). reflexivity.
Qed.

(** A build on a graph with entries and with tracked modified paths
    settles as the partial traversal of these paths does, once it has the
    options. *)
Lemma getChangedDependencies_traversal (m d : JsSet.t)
  (this : DeltaCalculator) (env : Env World) (o : JSTransformerOptions.t) :
  let b := build m d this env in
  let paths :=
    modifiedDependencies (_graph this)
      (invalidateDeleted (_graph this) d m) in
  Graph.dependencies (_graph this) <> JsMap.empty ->
  paths <> [] ->
  snd (getOptions this env) = inr o ->
  exists w graph settled,
    traverseDependencies paths
      {| transformerOptions := o; type := Options.type (_options this) |}
      (_graph this) (Options.onProgress (_options this))
      (world (snd (fst (getOptions this env))))
    = (w, graph, settled) /\
    _graph (build_this b) = graph /\
    build_result b =
    match settled with
    | inl error => inl error
    | inr (added, deleted) =>
        inr {| modified := added; deleted := deleted; reset := false |}
    end.
Proof.
  intros b paths Hne Hp. subst b paths. revert Hp.
  rewrite ?getChangedDependencies_unfold.
  unfold _getChangedDependencies_resume.
  pose proof (getTransformerOptions_spec this env) as H. cbv zeta in H.
  rewrite ?getTransformerOptions_unfold in *.
  destruct (resumeOptions _ this _) as [[this1 env1] [e | o1]]; simpl in H;
    destruct H as (H1 & _ & _ & H4 & _); simpl; [discriminate |].
  intros Hp [= ->]. rewrite H4, H1. split_build; simpl.
  - match goal with
    | E : Nat.eqb (JsMap.size _) 0 = true |- _ =>
        apply JsMapFacts.size_0 in E; contradiction
    end.
  - match goal with
    | E : Nat.eqb (JsMap.size _) 0 = true |- _ =>
        apply JsMapFacts.size_0 in E; contradiction
    end.
  - match goal with
    | E : Nat.eqb (length _) 0 = true |- _ =>
        apply Nat.eqb_eq, length_zero_iff_nil in E; contradiction
    end.
  - eexists _, _, _.
    split; [first [eassumption | reflexivity] |]. split; reflexivity.
  - eexists _, _, _.
    split; [first [eassumption | reflexivity] |]. split; reflexivity.
Qed.

(** What [getDelta] settles with, in terms of the build. *)
Lemma getDelta_outcome (resetArg : bool) (during : list FileChange)
  (this : DeltaCalculator) (env : Env World) :
  let b :=
    build (_modifiedFiles this) (_deletedFiles this)
      (setPending JsSet.empty JsSet.empty this) env in
  snd (delta resetArg during this env) =
  match build_result b with
  | inl error => inl error
  | inr result =>
      if resetArg then
        inr {| modified :=
                 Graph.dependencies (reorderGraph (_graph (build_this b)));
               deleted := JsSet.empty;
               reset := true |}
      else inr result
  end.
Proof.
  intros b. rewrite getDelta_eq. cbv zeta.
  destruct (getChangedDependencies_during during (_modifiedFiles this)
              (_deletedFiles this)
              (setPending JsSet.empty JsSet.empty this) env)
    as (E1 & _ & E3 & _).
  fold b in E1, E3.
  set (b1 := buildWhile _ _ _ _ _) in *.
  rewrite <- E1, <- E3.
  destruct (build_result b1); [reflexivity |].
  destruct resetArg; reflexivity.
Qed.

(** The graph a [getDelta] that resolves leaves, in terms of the build. *)
Lemma getDelta_resolved_graph (resetArg : bool) (during : list FileChange)
  (this this' : DeltaCalculator) (env env' : Env World)
  (result : DeltaResult) :
  delta resetArg during this env = (this', env', inr result) ->
  let b :=
    build (_modifiedFiles this) (_deletedFiles this)
      (setPending JsSet.empty JsSet.empty this) env in
  _graph this' =
  if resetArg then reorderGraph (_graph (build_this b))
  else _graph (build_this b).
Proof.
  intros H b. rewrite getDelta_eq in H. cbv zeta in H.
  destruct (getChangedDependencies_during during (_modifiedFiles this)
              (_deletedFiles this)
              (setPending JsSet.empty JsSet.empty this) env)
    as (_ & _ & E3 & _).
  fold b in E3.
  set (b1 := buildWhile _ _ _ _ _) in *.
  destruct (build_result b1) as [e | r0]; [discriminate |].
  destruct resetArg; injection H as <- _ _; simpl; now rewrite E3.
Qed.

Lemma filter_none (A : Type) (f : A -> bool) (l : list A) :
  (forall x, In x l -> f x = false) -> filter f l = [].
Proof.
  induction l as [| x l IH]; intros H; simpl; [reflexivity |].
  rewrite (H x (or_introl eq_refl)). apply IH.
  intros y Hy. apply H. now right.
Qed.

Lemma filter_all (A : Type) (f : A -> bool) (l : list A) :
  (forall x, In x l -> f x = true) -> filter f l = l.
Proof.
  induction l as [| x l IH]; intros H; simpl; [reflexivity |].
  rewrite (H x (or_introl eq_refl)). f_equal. apply IH.
  intros y Hy. apply H. now right.
Qed.

Lemma isPartialTraversal_engine (c : Call) :
  isEngineCall c = false -> isPartialTraversal c = false.
Proof. now destruct c. Qed.

(** C1, as amended.  On a graph with entries, the consumed modified set
    is enlarged by the [inverseDependencies] of every consumed deleted
    path that has an edge, and filtered down to the paths that have an
    edge.  A partial traversal is requested exactly when
    [getTransformerOptions] resolved and that list is not empty, and then
    once, of exactly that list on the calculator's graph; every other
    call to the engine is a [getDependencies] traversal run for the
    bundler or the reordering.  The call settles as that traversal does: it rejects
    with its error, or returns its [added] and [deleted] for a plain
    request and the whole reordered graph for a reset request; with an
    empty list it returns the empty delta for a plain request and the
    whole reordered graph for a reset request. *)
Theorem getDelta_submits_tracked_paths :
  forall (resetArg : bool) (during : list FileChange)
         (this this' : DeltaCalculator) (env env' : Env World)
         (outcome : JsError.t + DeltaResult),
  Graph.dependencies (_graph this) <> JsMap.empty ->
  delta resetArg during this env = (this', env', outcome) ->
  let expanded :=
    invalidateDeleted (_graph this) (_deletedFiles this)
      (_modifiedFiles this) in
  let submitted := modifiedDependencies (_graph this) expanded in
  (forall p,
     In p expanded <->
     In p (_modifiedFiles this) \/
     exists filePath edge,
       In filePath (_deletedFiles this) /\
       JsMap.get filePath (Graph.dependencies (_graph this)) = Some edge /\
       In p (Edge.inverseDependencies edge)) /\
  (forall p,
     In p submitted <->
     In p expanded /\
     JsMap.has p (Graph.dependencies (_graph this)) = true) /\
  (forall paths o graph,
     In (CallTraverseDependencies paths o graph) (callsSince env env') <->
     submitted <> [] /\ paths = submitted /\ graph = _graph this /\
     exists jo,
       snd (getOptions this env) = inr jo /\
       o = {| transformerOptions := jo;
              type := Options.type (_options this) |}) /\
  filter isPartialTraversal (callsSince env env')
  = match snd (getOptions this env), submitted with
    | inr jo, _ :: _ =>
        [CallTraverseDependencies submitted
           {| transformerOptions := jo;
              type := Options.type (_options this) |}
           (_graph this)]
    | _, _ => []
    end /\
  (forall c,
     In c (callsSince env env') -> isEngineCall c = true ->
     (exists o, c = CallTraverseDependencies submitted o (_graph this)) \/
     isGetDependenciesCall c \/
     (exists graph, c = CallReorderGraph graph)) /\
  (forall jo,
     snd (getOptions this env) = inr jo -> submitted <> [] ->
     exists w graph settled,
       traverseDependencies submitted
         {| transformerOptions := jo;
            type := Options.type (_options this) |}
         (_graph this) (Options.onProgress (_options this))
         (world (snd (fst (getOptions this env))))
       = (w, graph, settled) /\
       match settled with
       | inl error => outcome = inl error
       | inr (added, deleted) =>
           _graph this' = (if resetArg then reorderGraph graph else graph) /\
           outcome =
           inr (if resetArg
                then {| modified := Graph.dependencies (reorderGraph graph);
                        deleted := JsSet.empty;
                        reset := true |}
                else {| modified := added;
                        deleted := deleted;
                        reset := false |})
       end) /\
  (forall jo,
     snd (getOptions this env) = inr jo -> submitted = [] ->
     _graph this'
     = (if resetArg then reorderGraph (_graph this) else _graph this) /\
     outcome =
     inr (if resetArg
          then {| modified :=
                    Graph.dependencies (reorderGraph (_graph this));
                  deleted := JsSet.empty;
                  reset := true |}
          else {| modified := JsMap.empty;
                  deleted := JsSet.empty;
                  reset := false |})).
Proof.
  intros resetArg during this this' env env' outcome Hne H expanded submitted.
  pose proof (getDelta_trace resetArg during this env) as T.
  pose proof (getDelta_outcome resetArg during this env) as Out.
  rewrite H in T, Out. cbv zeta in T, Out. simpl fst in T. simpl snd in T, Out.
  set (fresh := setPending JsSet.empty JsSet.empty this) in *.
  set (b := build _ _ fresh env) in *.
  assert (Hsz : Nat.eqb (JsMap.size (Graph.dependencies (_graph this))) 0
                = false).
  { destruct (Nat.eqb _ 0) eqn:E; [| reflexivity].
    apply JsMapFacts.size_0 in E. contradiction. }
  destruct (getTransformerOptions_ext fresh this env env
              eq_refl eq_refl eq_refl) as (X & Y & _).
  split; [apply In_invalidateDeleted |].
  split; [intros p; unfold submitted, modifiedDependencies;
          apply filter_In |].
  split; [| split; [| split; [| split]]].
  - intros paths o graph. rewrite T, !in_app_iff. split.
    + intros [Hc | [Hc | [Hc | [Hc | Hc]]]].
      * apply startCalls_not_engine in Hc. discriminate.
      * apply emissions_not_engine in Hc. discriminate.
      * apply resumeCalls_fresh in Hc. destruct Hc as (q & o' & [=]).
      * destruct (snd (getOptions this env)) as [e | jo]; [destruct Hc |].
        unfold engineCalls in Hc. rewrite Hsz in Hc. fold expanded in Hc.
        fold submitted in Hc.
        destruct (Nat.eqb (length submitted) 0) eqn:L; [destruct Hc |].
        destruct Hc as [[= <- <- <-] | []].
        split; [intros E; rewrite E in L; discriminate |].
        repeat split. exists jo. split; reflexivity.
      * destruct (build_result b); [destruct Hc |].
        destruct resetArg; [| destruct Hc].
        destruct Hc as [[=] | []].
    + intros (Hs & -> & -> & jo & O & ->).
      right. right. right. left. rewrite O. unfold engineCalls.
      rewrite Hsz. fold expanded. fold submitted.
      destruct (Nat.eqb (length submitted) 0) eqn:L.
      * apply Nat.eqb_eq, length_zero_iff_nil in L. contradiction.
      * now left.
  - rewrite T, !filter_app.
    rewrite (@filter_none _ isPartialTraversal (startCalls this)),
      (@filter_none _ isPartialTraversal (emissions during this)),
      (@filter_none _ isPartialTraversal
         (resCalls (snd (startOptions this env)) this)).
    + assert (R : filter isPartialTraversal
                    match build_result b with
                    | inl _ => []
                    | inr _ =>
                        if resetArg
                        then [CallReorderGraph (_graph (build_this b))]
                        else []
                    end = [])
        by (destruct (build_result b); [| destruct resetArg]; reflexivity).
      rewrite R, app_nil_r. simpl.
      destruct (snd (getOptions this env)) as [e | jo]; [reflexivity |].
      unfold engineCalls. rewrite Hsz. fold expanded. fold submitted.
      clearbody submitted. destruct submitted; reflexivity.
    + intros c Hc. apply resumeCalls_fresh in Hc.
      now destruct Hc as (q & o1 & ->).
    + intros c Hc.
      now apply isPartialTraversal_engine, (emissions_not_engine during this).
    + intros c Hc.
      now apply isPartialTraversal_engine, startCalls_not_engine with this.
  - intros c Hc Ec. rewrite T, !in_app_iff in Hc.
    destruct Hc as [Hc | [Hc | [Hc | [Hc | Hc]]]].
    + apply startCalls_not_engine in Hc. congruence.
    + apply emissions_not_engine in Hc. congruence.
    + apply resumeCalls_fresh in Hc. right. now left.
    + destruct (snd (getOptions this env)) as [e | jo]; [destruct Hc |].
      unfold engineCalls in Hc. rewrite Hsz in Hc. fold expanded in Hc.
      fold submitted in Hc.
      destruct (Nat.eqb (length submitted) 0); [destruct Hc |].
      destruct Hc as [<- | []]. left. eexists. reflexivity.
    + destruct (build_result b); [destruct Hc |].
      destruct resetArg; [| destruct Hc].
      destruct Hc as [<- | []]. right. right. eexists. reflexivity.
  - intros jo O Hs.
    assert (Of : snd (getOptions fresh env) = inr jo) by congruence.
    destruct (getChangedDependencies_traversal (_modifiedFiles this)
                (_deletedFiles this) fresh env Hne Hs Of)
      as (w & graph & settled & Tr & G & R).
    fold b in G, R. rewrite Y in Tr.
    exists w, graph, settled. split; [exact Tr |].
    rewrite R in Out. destruct settled as [e | [added deleted]].
    + exact Out.
    + split.
      * destruct outcome as [e | result]; [destruct resetArg; discriminate |].
        rewrite (getDelta_resolved_graph _ _ _ _ H). fold fresh b.
        now rewrite G.
      * rewrite Out, G. now destruct resetArg.
  - intros jo O Hs.
    assert (Of : snd (getOptions fresh env) = inr jo) by congruence.
    destruct (getChangedDependencies_unchanged (_modifiedFiles this)
                (_deletedFiles this) fresh env Hne Hs Of) as (R & G).
    fold b in G, R. rewrite R in Out. split.
    + destruct outcome as [e | result]; [destruct resetArg; discriminate |].
      rewrite (getDelta_resolved_graph _ _ _ _ H). fold fresh b.
      now rewrite G.
    + rewrite Out, G. now destruct resetArg.
Qed.

(** *** Memoized options on reachable states *)

(** After a build, either the options are memoized, or the derivation of
    the options rejected and the graph was not touched. *)
Lemma getChangedDependencies_options (m d : JsSet.t)
  (this : DeltaCalculator) (env : Env World) :
  let b := build m d this env in
  _transformerOptions (build_this b) <> None \/
  (_graph (build_this b) = _graph this /\
   _transformerOptions this = None /\
   exists e, build_result b = inl e).
Proof.
  rewrite ?getChangedDependencies_unfold.
  unfold _getChangedDependencies_resume.
  pose proof (getTransformerOptions_spec this env) as H. cbv zeta in H.
  rewrite ?getTransformerOptions_unfold in *.
  destruct (resumeOptions _ this _) as [[this1 env1] [e | o]]; simpl in H;
    destruct H as (_ & _ & _ & H4 & _ & _ & _ & H8).
  - right. simpl. destruct H8 as [_ H8]. eauto.
  - left. split_build; simpl; congruence.
Qed.

Lemma getDelta_optionsMemoized (resetArg : bool) (during : list FileChange)
  (this : DeltaCalculator) (env : Env World) :
  optionsMemoized this ->
  optionsMemoized (fst (fst (delta resetArg during this env))).
Proof.
  unfold optionsMemoized. intros Inv.
  rewrite getDelta_eq. cbv zeta.
  set (fresh := setPending JsSet.empty JsSet.empty this) in *.
  destruct (getChangedDependencies_during during (_modifiedFiles this)
              (_deletedFiles this) fresh env) as (E1 & _ & E3 & E4 & _).
  set (b1 := buildWhile _ _ _ _ _) in *.
  destruct (getChangedDependencies_options (_modifiedFiles this)
              (_deletedFiles this) fresh env) as [O | (G & O & e & R)].
  - rewrite <- E4 in O.
    destruct (build_result b1) as [e | r]; simpl.
    + intros _. now rewrite restoreAfterError_transformerOptions.
    + destruct resetArg; simpl; intros _; assumption.
  - rewrite <- E1 in R. rewrite R. simpl.
    rewrite restoreAfterError_graph, restoreAfterError_transformerOptions.
    rewrite E3, G, E4. change (_graph fresh) with (_graph this).
    rewrite Nat.eqb_refl. intros Hne. apply Inv in Hne. contradiction.
Qed.

Lemma reachable_optionsMemoized (this : DeltaCalculator) :
  Reachable this -> optionsMemoized this.
Proof.
  induction 1 as [options | l this _ IH | evs this env _ IH
                  | resetArg during this env _ IH | this env _ IH
                  | this _ IH].
  - intros H. now contradiction H.
  - exact IH.
  - destruct (handleMultipleFileChanges_frame evs this env)
      as (_ & F2 & F3 & _).
    unfold optionsMemoized. rewrite F2, F3. exact IH.
  - now apply getDelta_optionsMemoized.
  - pose proof (getTransformerOptions_spec this env) as H.
    destruct (getOptions this env) as [[this1 env1] [e | o]]; simpl in *;
      destruct H as (_ & _ & _ & H4 & _ & _ & _ & H8);
      unfold optionsMemoized; rewrite H4.
    + destruct H8 as [_ H8]. intros Hne. apply IH in Hne. contradiction.
    + intros _. congruence.
  - intros H. now contradiction H.
Qed.

(** *** The pending sets stay sets *)

Lemma handleMultipleFileChanges_wellFormed (eventsQueue : list FileChange) :
  forall (this : DeltaCalculator) (env : Env World),
  pendingWellFormed this ->
  pendingWellFormed (fst (_handleMultipleFileChanges eventsQueue this env)).
Proof.
  unfold _handleMultipleFileChanges.
  induction eventsQueue as [| ev evs IH]; intros this env H; simpl;
    [assumption |].
  specialize (IH (fst (_handleFileChange ev this env))
                 (snd (_handleFileChange ev this env))).
  rewrite <- surjective_pairing in IH. apply IH.
  destruct H as [Hm Hd]. unfold _handleFileChange, pendingWellFormed.
  destruct (String.eqb (change_type ev) "delete"); simpl; split;
    auto using JsSetFacts.NoDup_add, JsSetFacts.NoDup_delete.
Qed.

Lemma getDelta_wellFormed (resetArg : bool) (during : list FileChange)
  (this : DeltaCalculator) (env : Env World) :
  pendingWellFormed (fst (fst (delta resetArg during this env))).
Proof.
  rewrite getDelta_eq. cbv zeta.
  set (fresh := setPending JsSet.empty JsSet.empty this).
  destruct (getChangedDependencies_during during (_modifiedFiles this)
              (_deletedFiles this) fresh env)
    as (_ & _ & _ & _ & _ & E6 & E7).
  assert (W : pendingWellFormed
                (fst (_handleMultipleFileChanges during fresh env)))
    by (apply handleMultipleFileChanges_wellFormed; split; constructor).
  destruct W as [Wm Wd]. rewrite <- E6 in Wm. rewrite <- E7 in Wd.
  set (b1 := buildWhile _ _ _ _ _) in *.
  unfold pendingWellFormed.
  destruct (build_result b1) as [e | r]; simpl.
  - rewrite restoreAfterError_modified, restoreAfterError_deleted.
    split; now apply JsSetFacts.NoDup_addAll.
  - destruct resetArg; simpl; split; assumption.
Qed.

Lemma reachable_wellFormed (this : DeltaCalculator) :
  Reachable this -> pendingWellFormed this.
Proof.
  induction 1 as [options | l this _ IH | evs this env _ IH
                  | resetArg during this env _ IH | this env _ IH
                  | this _ IH].
  - split; constructor.
  - exact IH.
  - now apply handleMultipleFileChanges_wellFormed.
  - apply getDelta_wellFormed.
  - pose proof (getTransformerOptions_spec this env) as H.
    destruct H as (_ & H2 & H3 & _).
    unfold pendingWellFormed. rewrite H2, H3. exact IH.
  - split; constructor.
Qed.

(** C7. On a calculator with entries in its graph, a [getDelta] that is
    not a reset and finds no consumed modified path with an edge after the
    expansion returns the empty delta that is not a reset, calls neither
    the engine nor any other collaborator, and leaves the graph as it
    is. *)
Theorem getDelta_no_tracked_change :
  forall (during : list FileChange) (this : DeltaCalculator)
         (env : Env World),
  Reachable this ->
  Graph.dependencies (_graph this) <> JsMap.empty ->
  modifiedDependencies (_graph this)
    (invalidateDeleted (_graph this) (_deletedFiles this)
       (_modifiedFiles this)) = [] ->
  let r := delta false during this env in
  snd r
  = inr {| modified := JsMap.empty; deleted := JsSet.empty; reset := false |}
  /\ _graph (fst (fst r)) = _graph this
  /\ callsSince env (snd (fst r)) = emissions during this
  /\ Forall (fun c => isEngineCall c = false) (callsSince env (snd (fst r))).
Proof.
  intros during this env Hr Hne Hp r.
  destruct (_transformerOptions this) as [o |] eqn:O;
    [| now apply (reachable_optionsMemoized Hr) in Hne].
  set (fresh := setPending JsSet.empty JsSet.empty this).
  assert (Of : snd (getOptions fresh env) = inr o)
    by (rewrite (@getTransformerOptions_memoized fresh env o O);
        reflexivity).
  destruct (getChangedDependencies_unchanged (_modifiedFiles this)
              (_deletedFiles this) fresh env Hne Hp Of) as (R & G).
  assert (T : callsSince env (snd (fst r)) = emissions during this).
  { subst r. rewrite getDelta_trace.
    rewrite (getTransformerOptions_memoized this env O). simpl snd.
    fold fresh. rewrite R.
    destruct (getTransformerOptions_start_spec this env) as (_ & _ & Q).
    rewrite (@resumeCalls_requestFor _ this o Q O).
    unfold startCalls, engineCalls. rewrite O, Hp. simpl.
    destruct (Nat.eqb (JsMap.size _) 0) eqn:E;
      [apply JsMapFacts.size_0 in E; contradiction |].
    now rewrite app_nil_r. }
  split; [| split; [| split; [exact T |]]].
  - subst r. rewrite getDelta_eq. cbv zeta. fold fresh.
    destruct (getChangedDependencies_during during (_modifiedFiles this)
                (_deletedFiles this) fresh env) as (E1 & _).
    rewrite E1, R. reflexivity.
  - subst r. rewrite getDelta_eq. cbv zeta. fold fresh.
    destruct (getChangedDependencies_during during (_modifiedFiles this)
                (_deletedFiles this) fresh env) as (E1 & _ & E3 & _).
    rewrite E1, R. simpl. rewrite E3. exact G.
  - rewrite T. apply Forall_forall. intros c.
    apply emissions_not_engine.
Qed.

(** C10. [end()] keeps the memoized transformer options: the options a
    [getTransformerOptions()] resolved to are what a call after [end()]
    resolves to, without any call to a collaborator; [end()] resets the
    graph, the pending sets and the listeners, and leaves the options. *)
Theorem end_keeps_transformerOptions :
  forall (this this1 : DeltaCalculator) (env env1 env2 : Env World)
         (o : JSTransformerOptions.t),
  getOptions this env = (this1, env1, inr o) ->
  getOptions (end_ this1) env2 = (end_ this1, env2, inr o) /\
  _transformerOptions (end_ this1) = _transformerOptions this1 /\
  _options (end_ this1) = _options this1 /\
  _graph (end_ this1) = emptyGraph (_options this1) /\
  _modifiedFiles (end_ this1) = JsSet.empty /\
  _deletedFiles (end_ this1) = JsSet.empty /\
  listeners (end_ this1) = [] /\
  watching (end_ this1) = false.
Proof.
  intros this this1 env env1 env2 o H.
  pose proof (getTransformerOptions_spec this env) as S.
  rewrite H in S. simpl in S.
  destruct S as (_ & _ & _ & _ & _ & _ & _ & S).
  split; [| repeat split].
  apply getTransformerOptions_memoized. exact S.
Qed.


(** *** The first delta *)

(** The traversals run for the bundler are calls to the engine. *)
Lemma getDependenciesCalls_engine (o : TraverseOptions)
  (run : BundlerRun World) :
  filter isEngineCall (getDependenciesCalls initialTraverseDependencies o run)
  = getDependenciesCalls initialTraverseDependencies o run.
Proof.
  induction run as [w ir | w e | w path next IH]; simpl;
    [reflexivity | reflexivity |].
  f_equal.
  destruct (initialTraverseDependencies _ o None w) as [[w1 g1] [e | added]];
    apply IH.
Qed.

Lemma resumeCalls_engine (request : OptionsRequest World)
  (this : DeltaCalculator) :
  filter isEngineCall (resCalls request this) = resCalls request this.
Proof.
  destruct request as [o | [o | g run]]; simpl; try reflexivity.
  apply getDependenciesCalls_engine.
Qed.

Section EngineContract.

(** What the specification of the engine says of an initial traversal: it
    resolves to the full set of edges it created, which on an empty graph
    are the entries of the graph it leaves. *)
Hypothesis initial_added_full :
  forall graph o onProgress w w' graph' added,
  Graph.dependencies graph = JsMap.empty ->
  initialTraverseDependencies graph o onProgress w
  = (w', graph', inr added) ->
  Permutation added (Graph.dependencies graph').

(** What it says of the reordering: only the iteration order changes. *)
Hypothesis reorder_permutes :
  forall graph,
  Permutation (Graph.dependencies (reorderGraph graph))
              (Graph.dependencies graph).

(** C6. A [getDelta] on an empty graph that resolves has asked the engine
    for an initial traversal of the calculator's graph and for no partial
    traversal: its calls to the engine are, in this order, the
    [getDependencies] traversals run for the bundler while the options
    were derived, the initial traversal of the calculator's graph and,
    for a reset request, the reordering.  Its delta has [reset = true],
    an empty [deleted] and, as [modified], the edges the initial traversal
    created: [added] itself for a plain request, the reordered graph for a
    reset request. *)
Theorem getDelta_empty_graph_initial :
  forall (resetArg : bool) (during : list FileChange)
         (this this' : DeltaCalculator) (env env' : Env World)
         (result : DeltaResult),
  Graph.dependencies (_graph this) = JsMap.empty ->
  delta resetArg during this env = (this', env', inr result) ->
  exists o w graph added,
    let transformerOptions :=
      {| transformerOptions := o; type := Options.type (_options this) |} in
    snd (getOptions this env) = inr o /\
    initialTraverseDependencies (_graph this) transformerOptions
      (Options.onProgress (_options this))
      (world (snd (fst (getOptions this env))))
    = (w, graph, inr added) /\
    In (CallInitialTraverseDependencies (_graph this) transformerOptions)
       (callsSince env env') /\
    (forall paths o' graph',
       ~ In (CallTraverseDependencies paths o' graph')
            (callsSince env env')) /\
    filter isEngineCall (callsSince env env') =
      resCalls (snd (startOptions this env)) this ++
      [CallInitialTraverseDependencies (_graph this) transformerOptions] ++
      (if resetArg then [CallReorderGraph graph] else []) /\
    (forall c,
       In c (resCalls (snd (startOptions this env)) this) ->
       isGetDependenciesCall c) /\
    reset result = true /\
    deleted result = JsSet.empty /\
    (resetArg = false -> modified result = added /\ _graph this' = graph) /\
    (resetArg = true ->
     modified result = Graph.dependencies (reorderGraph graph) /\
     _graph this' = reorderGraph graph) /\
    Permutation (modified result) added.
Proof.
  intros resetArg during this this' env env' result He H.
  pose proof (getDelta_trace resetArg during this env) as T.
  rewrite H in T. cbv zeta in T. simpl fst in T. simpl snd in T.
  rewrite getDelta_eq in H. cbv zeta in H.
  set (fresh := setPending JsSet.empty JsSet.empty this) in *.
  destruct (getChangedDependencies_during during (_modifiedFiles this)
              (_deletedFiles this) fresh env) as (E1 & _ & E3 & _).
  set (b1 := buildWhile _ _ _ _ _) in *.
  set (b0 := build _ _ fresh env) in *.
  destruct (build_result b1) as [e | r0] eqn:R;
    [discriminate |]. symmetry in E1.
  destruct (getChangedDependencies_initial (_modifiedFiles this)
              (_deletedFiles this) fresh env He E1)
    as (o & w & O & I & D & Rs & _).
  fold b0 in I.
  destruct (getTransformerOptions_ext fresh this env env
              eq_refl eq_refl eq_refl) as (X & Y & _).
  rewrite X in O. rewrite Y in I.
  change (_graph fresh) with (_graph this) in I.
  change (_options fresh) with (_options this) in I.
  rewrite E1, O in T. unfold engineCalls in T. rewrite He in T.
  simpl Nat.eqb in T. cbv iota zeta in T.
  exists o, w, (_graph (build_this b0)), (modified r0). cbv zeta.
  split; [exact O |]. split; [exact I |].
  split; [rewrite T, !in_app_iff; right; right; right; left; now left |].
  split.
  { intros paths o' graph'. rewrite T, !in_app_iff.
    intros [Hc | [Hc | [Hc | [Hc | Hc]]]].
    - apply startCalls_not_engine in Hc. discriminate.
    - apply emissions_not_engine in Hc. discriminate.
    - apply resumeCalls_fresh in Hc. destruct Hc as (q & o1 & [=]).
    - destruct Hc as [[=] | []].
    - destruct resetArg; [destruct Hc as [[=] | []] | destruct Hc]. }
  split.
  { rewrite T, !filter_app, resumeCalls_engine.
    rewrite (@filter_none _ isEngineCall _ (startCalls_not_engine this)).
    rewrite (@filter_none _ isEngineCall _ (emissions_not_engine during this)).
    simpl. now destruct resetArg. }
  split; [intros c; apply resumeCalls_fresh |].
  pose proof (initial_added_full He I) as P.
  destruct resetArg.
  - injection H as <- _ <-. simpl. rewrite E3.
    repeat split; try discriminate.
    eapply perm_trans; [apply reorder_permutes |].
    now apply Permutation_sym.
  - injection H as <- _ <-. rewrite E3.
    repeat split; try discriminate; try assumption.
    apply Permutation_refl.
Qed.

End EngineContract.


(** ** More about the watcher events *)

Lemma JsSet_add_add (x : string) (s : JsSet.t) :
  JsSet.add x (JsSet.add x s) = JsSet.add x s.
Proof.
  unfold JsSet.add at 1.
  assert (H : JsSet.has x (JsSet.add x s) = true)
    by (apply JsSetFacts.has_In, JsSetFacts.In_add; now left).
  now rewrite H.
Qed.

Lemma JsSet_delete_delete (x : string) (s : JsSet.t) :
  JsSet.delete x (JsSet.delete x s) = JsSet.delete x s.
Proof.
  unfold JsSet.delete. induction s as [| y s IH]; simpl; [reflexivity |].
  destruct (negb (String.eqb x y)) eqn:E; simpl; [rewrite E |];
    now rewrite IH.
Qed.

(** An event for another path does not change whether a path is
    pending. *)
Lemma handleMultipleFileChanges_other_paths (p : string)
  (eventsQueue : list FileChange) :
  forall (this : DeltaCalculator) (env : Env World),
  (forall ev, In ev eventsQueue -> filePath ev <> p) ->
  let st := _handleMultipleFileChanges eventsQueue this env in
  (In p (_modifiedFiles (fst st)) <-> In p (_modifiedFiles this)) /\
  (In p (_deletedFiles (fst st)) <-> In p (_deletedFiles this)).
Proof.
  unfold _handleMultipleFileChanges.
  induction eventsQueue as [| ev evs IH]; intros this env H; simpl;
    [split; reflexivity |].
  specialize (IH (fst (_handleFileChange ev this env))
                 (snd (_handleFileChange ev this env))).
  rewrite <- surjective_pairing in IH.
  destruct IH as [I1 I2]; [intros ev' H'; apply H; now right |].
  rewrite I1, I2. clear I1 I2.
  assert (Hp : p <> filePath ev)
    by (intros ->; now apply (H ev); [left |]).
  unfold _handleFileChange.
  destruct (String.eqb (change_type ev) "delete"); simpl;
    rewrite JsSetFacts.In_add, JsSetFacts.In_delete; tauto.
Qed.

(** X1. In a batch of watcher events the last event for a path decides:
    after a last ['delete'] the path is pending as deleted and not as
    modified, after a last event of any other type it is pending as
    modified and not as deleted. *)
Theorem handleMultipleFileChanges_last_event_wins :
  forall (earlier rest : list FileChange) (ev : FileChange)
         (this : DeltaCalculator) (env : Env World),
  (forall ev', In ev' rest -> filePath ev' <> filePath ev) ->
  let st := _handleMultipleFileChanges (earlier ++ ev :: rest) this env in
  if String.eqb (change_type ev) "delete"
  then In (filePath ev) (_deletedFiles (fst st)) /\
       ~ In (filePath ev) (_modifiedFiles (fst st))
  else In (filePath ev) (_modifiedFiles (fst st)) /\
       ~ In (filePath ev) (_deletedFiles (fst st)).
Proof.
  intros earlier rest ev this env H st. subst st.
  unfold _handleMultipleFileChanges. rewrite fold_left_app. simpl.
  set (st0 := fold_left _ earlier (this, env)).
  pose proof (@handleMultipleFileChanges_other_paths (filePath ev) rest
                (fst (_handleFileChange ev (fst st0) (snd st0)))
                (snd (_handleFileChange ev (fst st0) (snd st0))) H)
    as [I1 I2].
  unfold _handleMultipleFileChanges in I1, I2.
  rewrite <- surjective_pairing in I1, I2.
  destruct (String.eqb (change_type ev) "delete") eqn:E;
    rewrite I1, I2; unfold _handleFileChange; rewrite E; simpl;
    rewrite JsSetFacts.In_add, JsSetFacts.In_delete; tauto.
Qed.

(** X2. A batch of watcher events keeps disjoint pending sets disjoint. *)
Theorem handleMultipleFileChanges_keeps_disjoint :
  forall (eventsQueue : list FileChange) (this : DeltaCalculator)
         (env : Env World),
  JsSet.disjoint (_modifiedFiles this) (_deletedFiles this) ->
  let st := _handleMultipleFileChanges eventsQueue this env in
  JsSet.disjoint (_modifiedFiles (fst st)) (_deletedFiles (fst st)).
Proof.
  intros eventsQueue this env H.
  now apply handleMultipleFileChanges_disjoint.
Qed.

(** X3. A batch of watcher events emits ['change'] once per event, to the
    registered listeners, and touches nothing but the pending sets: the
    graph, the options, the memoized transformer options, the listeners
    and the world are as before. *)
Theorem handleMultipleFileChanges_only_pending :
  forall (eventsQueue : list FileChange) (this : DeltaCalculator)
         (env : Env World),
  let st := _handleMultipleFileChanges eventsQueue this env in
  callsSince env (snd st)
  = map (fun _ => EmitChange (listeners this)) eventsQueue /\
  length (callsSince env (snd st)) = length eventsQueue /\
  _graph (fst st) = _graph this /\
  _options (fst st) = _options this /\
  _transformerOptions (fst st) = _transformerOptions this /\
  listeners (fst st) = listeners this /\
  watching (fst st) = watching this /\
  world (snd st) = world env.
Proof.
  intros eventsQueue this env st.
  destruct (handleMultipleFileChanges_frame eventsQueue this env)
    as (F1 & F2 & F3 & F4 & F5 & F6 & F7).
  fold st in F1, F2, F3, F4, F5, F6, F7.
  apply callsSince_app in F7. rewrite F7. unfold emissions.
  rewrite length_map. repeat split; assumption.
Qed.

(** X4. Handling the same watcher event a second time leaves the pending
    sets as the first time left them. *)
Theorem handleFileChange_twice :
  forall (ev : FileChange) (this : DeltaCalculator) (env : Env World),
  let once := _handleFileChange ev this env in
  let twice := _handleFileChange ev (fst once) (snd once) in
  _modifiedFiles (fst twice) = _modifiedFiles (fst once) /\
  _deletedFiles (fst twice) = _deletedFiles (fst once).
Proof.
  intros ev this env. unfold _handleFileChange.
  destruct (String.eqb (change_type ev) "delete"); simpl;
    now rewrite JsSet_add_add, JsSet_delete_delete.
Qed.

(** ** More about [getDelta] *)

(** With memoized options, a graph with entries and no tracked modified
    path, a plain [getDelta] returns the empty delta and calls nobody. *)
Lemma getDelta_unchanged_memoized (during : list FileChange)
  (this : DeltaCalculator) (env : Env World) (o : JSTransformerOptions.t) :
  _transformerOptions this = Some o ->
  Graph.dependencies (_graph this) <> JsMap.empty ->
  modifiedDependencies (_graph this)
    (invalidateDeleted (_graph this) (_deletedFiles this)
       (_modifiedFiles this)) = [] ->
  let r := delta false during this env in
  snd r
  = inr {| modified := JsMap.empty; deleted := JsSet.empty; reset := false |}
  /\ _graph (fst (fst r)) = _graph this
  /\ callsSince env (snd (fst r)) = emissions during this.
Proof.
  intros O Hne Hp r.
  set (fresh := setPending JsSet.empty JsSet.empty this).
  assert (Of : snd (getOptions fresh env) = inr o)
    by (rewrite (@getTransformerOptions_memoized fresh env o O);
        reflexivity).
  destruct (getChangedDependencies_unchanged (_modifiedFiles this)
              (_deletedFiles this) fresh env Hne Hp Of) as (R & G).
  destruct (getChangedDependencies_during during (_modifiedFiles this)
              (_deletedFiles this) fresh env) as (E1 & _ & E3 & _).
  split; [| split].
  - subst r. rewrite getDelta_eq. cbv zeta. fold fresh.
    rewrite E1, R. reflexivity.
  - subst r. rewrite getDelta_eq. cbv zeta. fold fresh.
    rewrite E1, R. simpl. rewrite E3. exact G.
  - subst r. rewrite getDelta_trace.
    rewrite (getTransformerOptions_memoized this env O). simpl snd.
    fold fresh. rewrite R.
    destruct (getTransformerOptions_start_spec this env) as (_ & _ & Q).
    rewrite (@resumeCalls_requestFor _ this o Q O).
    unfold startCalls, engineCalls. rewrite O, Hp. simpl.
    destruct (Nat.eqb (JsMap.size _) 0) eqn:E;
      [apply JsMapFacts.size_0 in E; contradiction |].
    now rewrite app_nil_r.
Qed.

(** A [getDelta] that resolves on an empty graph made exactly one call to
    the engine before any reordering, the initial traversal, and returns
    a reset delta. *)
Lemma getDelta_initial (resetArg : bool) (during : list FileChange)
  (this this' : DeltaCalculator) (env env' : Env World)
  (result : DeltaResult) :
  Graph.dependencies (_graph this) = JsMap.empty ->
  delta resetArg during this env = (this', env', inr result) ->
  reset result = true /\
  deleted result = JsSet.empty /\
  exists o graph,
    snd (getOptions this env) = inr o /\
    callsSince env env' =
      startCalls this ++ emissions during this ++
      resCalls (snd (startOptions this env)) this ++
      [CallInitialTraverseDependencies (_graph this)
         {| transformerOptions := o;
            type := Options.type (_options this) |}] ++
      (if resetArg then [CallReorderGraph graph] else []).
Proof.
  intros He H.
  pose proof (getDelta_trace resetArg during this env) as T.
  rewrite H in T. cbv zeta in T. simpl fst in T. simpl snd in T.
  rewrite getDelta_eq in H. cbv zeta in H.
  set (fresh := setPending JsSet.empty JsSet.empty this) in *.
  destruct (getChangedDependencies_during during (_modifiedFiles this)
              (_deletedFiles this) fresh env) as (E1 & _ & E3 & _).
  set (b1 := buildWhile _ _ _ _ _) in *.
  set (b0 := build _ _ fresh env) in *.
  destruct (build_result b1) as [e | r0] eqn:R; [discriminate |].
  symmetry in E1.
  destruct (getChangedDependencies_initial (_modifiedFiles this)
              (_deletedFiles this) fresh env He E1)
    as (o & w & O & _ & D & Rs & _).
  destruct (getTransformerOptions_ext fresh this env env
              eq_refl eq_refl eq_refl) as (X & _).
  rewrite X in O.
  rewrite E1, O in T. unfold engineCalls in T. rewrite He in T.
  simpl Nat.eqb in T. cbv iota zeta in T.
  destruct resetArg.
  - injection H as _ _ <-. simpl. repeat split.
    exists o, (_graph (build_this b0)). split; assumption.
  - injection H as _ _ <-. repeat split; try assumption.
    exists o, (_graph (build_this b0)). split; assumption.
Qed.

(** When the derivation of the options rejects, the build rejects with
    the same error before it looks at the graph. *)
Lemma getChangedDependencies_rejected_options (m d : JsSet.t)
  (this : DeltaCalculator) (env : Env World) (error : JsError.t) :
  snd (getOptions this env) = inl error ->
  let b := build m d this env in
  build_result b = inl error /\
  build_modifiedFiles b = m /\
  _graph (build_this b) = _graph this /\
  _transformerOptions (build_this b) = None.
Proof.
  rewrite ?getChangedDependencies_unfold.
  unfold _getChangedDependencies_resume.
  pose proof (getTransformerOptions_spec this env) as H. cbv zeta in H.
  rewrite ?getTransformerOptions_unfold in *.
  destruct (resumeOptions _ this _) as [[this1 env1] [e | o]]; simpl in H;
    destruct H as (_ & _ & _ & H4 & _ & _ & _ & H8); simpl;
    [| discriminate].
  intros [= ->]. destruct H8 as [H8 _]. repeat split; assumption.
Qed.

(** X5. After a [getDelta] that resolved with no watcher event handled
    meanwhile, a plain [getDelta] on the graph with entries it left
    returns the empty delta, leaves the graph alone and calls no
    collaborator: the changes of the first call are not reported twice. *)
Theorem getDelta_then_getDelta_is_empty :
  forall (resetArg : bool) (this this' : DeltaCalculator)
         (env env' env2 : Env World) (result : DeltaResult)
         (during : list FileChange),
  delta resetArg [] this env = (this', env', inr result) ->
  Graph.dependencies (_graph this') <> JsMap.empty ->
  let r := delta false during this' env2 in
  snd r
  = inr {| modified := JsMap.empty; deleted := JsSet.empty; reset := false |}
  /\ _graph (fst (fst r)) = _graph this'
  /\ callsSince env2 (snd (fst r)) = emissions during this'.
Proof.
  intros resetArg this this' env env' env2 result during H Hne.
  rewrite getDelta_eq in H. cbv zeta in H.
  rewrite buildDuring_nil in H.
  set (fresh := setPending JsSet.empty JsSet.empty this) in *.
  destruct (getChangedDependencies_frame (_modifiedFiles this)
              (_deletedFiles this) fresh env) as (_ & Fd & Fm & _).
  destruct (getChangedDependencies_options (_modifiedFiles this)
              (_deletedFiles this) fresh env) as [O | (_ & _ & e & R)].
  - set (b := build _ _ fresh env) in *.
    assert (P : _modifiedFiles this' = [] /\ _deletedFiles this' = [] /\
                _transformerOptions this' = _transformerOptions (build_this b)).
    { destruct (build_result b) as [e | r0]; [discriminate |].
      destruct resetArg; injection H as <- _ _; simpl;
        rewrite ?Fd, ?Fm; repeat split. }
    destruct P as (Pm & Pd & Po). rewrite <- Po in O.
    destruct (_transformerOptions this') as [o |] eqn:O';
      [| now contradiction O].
    apply (getDelta_unchanged_memoized during this' env2 O' Hne).
    rewrite Pm, Pd. reflexivity.
  - rewrite R in H. discriminate.
Qed.

(** X6. After a [getDelta] that rejected and left a graph whose number of
    entries is not the number recorded before the build, the next
    [getDelta] that resolves asked the engine for an initial traversal of
    the emptied graph, for no partial traversal, and returns a reset
    delta. *)
Theorem getDelta_error_then_full_rebuild :
  forall (reset1 : bool) (during1 : list FileChange)
         (this this1 : DeltaCalculator) (env env1 : Env World)
         (error : JsError.t),
  delta reset1 during1 this env = (this1, env1, inl error) ->
  let b :=
    build (_modifiedFiles this) (_deletedFiles this)
      (setPending JsSet.empty JsSet.empty this) env in
  JsMap.size (Graph.dependencies (_graph (build_this b)))
  <> JsMap.size (Graph.dependencies (_graph this)) ->
  forall (reset2 : bool) (during2 : list FileChange)
         (this2 : DeltaCalculator) (env2 env3 : Env World)
         (result : DeltaResult),
  delta reset2 during2 this1 env2 = (this2, env3, inr result) ->
  Graph.dependencies (_graph this1) = JsMap.empty /\
  reset result = true /\
  deleted result = JsSet.empty /\
  (exists o,
     In (CallInitialTraverseDependencies (_graph this1)
           {| transformerOptions := o;
              type := Options.type (_options this1) |})
        (callsSince env2 env3)) /\
  (forall paths o graph,
     ~ In (CallTraverseDependencies paths o graph) (callsSince env2 env3)).
Proof.
  intros reset1 during1 this this1 env env1 error H b Hsz
         reset2 during2 this2 env2 env3 result H2.
  assert (He : Graph.dependencies (_graph this1) = JsMap.empty).
  { rewrite getDelta_eq in H. cbv zeta in H.
    destruct (getChangedDependencies_during during1 (_modifiedFiles this)
                (_deletedFiles this)
                (setPending JsSet.empty JsSet.empty this) env)
      as (_ & _ & E3 & _).
    fold b in E3.
    set (b1 := buildWhile _ _ _ _ _) in *.
    destruct (build_result b1) as [e | r0];
      [| destruct reset1; discriminate].
    injection H as <- _ _.
    rewrite restoreAfterError_graph, E3.
    apply Nat.eqb_neq in Hsz. rewrite Hsz. reflexivity. }
  destruct (getDelta_initial _ _ _ _ He H2) as (Rs & D & o & g & O & T).
  split; [exact He |]. split; [exact Rs |]. split; [exact D |].
  split.
  - exists o. rewrite T, !in_app_iff. right. right. right. left. now left.
  - intros paths o' graph Hin. rewrite T, !in_app_iff in Hin.
    destruct Hin as [Hin | [Hin | [Hin | [Hin | Hin]]]].
    + apply startCalls_not_engine in Hin. discriminate.
    + apply emissions_not_engine in Hin. discriminate.
    + apply resumeCalls_fresh in Hin. destruct Hin as (q & o1 & [=]).
    + destruct Hin as [Hin | []]. discriminate.
    + destruct reset2; [destruct Hin as [Hin | []]; discriminate
                       | destruct Hin].
Qed.

(** What [getDelta] settles with, in terms of the build. *)

(** X7. [reorderGraph] is called exactly when a reset delta was requested
    and the build resolved, and then on the graph the build left: a plain
    request never reorders, and neither does a request whose build
    rejected. *)
Theorem getDelta_reorders_iff_reset_resolved :
  forall (resetArg : bool) (during : list FileChange)
         (this : DeltaCalculator) (env : Env World) (graph : Graph.t),
  let r := delta resetArg during this env in
  let b :=
    build (_modifiedFiles this) (_deletedFiles this)
      (setPending JsSet.empty JsSet.empty this) env in
  In (CallReorderGraph graph) (callsSince env (snd (fst r))) <->
  resetArg = true /\
  (exists result, snd r = inr result) /\
  graph = _graph (build_this b).
Proof.
  intros resetArg during this env graph r b. subst r.
  rewrite getDelta_trace, getDelta_outcome. fold b.
  rewrite !in_app_iff. split.
  - intros [H | [H | [H | [H | H]]]].
    + apply startCalls_not_engine in H. discriminate.
    + apply emissions_not_engine in H. discriminate.
    + apply resumeCalls_fresh in H. destruct H as (q & o1 & [=]).
    + destruct (snd (getOptions this env)) as [e | o]; [destruct H |].
      unfold engineCalls in H.
      destruct (Nat.eqb (JsMap.size _) 0);
        [destruct H as [H | []]; discriminate |].
      destruct (Nat.eqb (length _) 0); [destruct H |].
      destruct H as [H | []]. discriminate.
    + destruct (build_result b) as [e | r0]; [destruct H |].
      destruct resetArg; [| destruct H].
      destruct H as [[= <-] | []]. repeat split. eexists. reflexivity.
  - intros (-> & (result & R) & ->).
    destruct (build_result b) as [e | r0]; [discriminate |].
    right. right. right. right. now left.
Qed.

(** X8. When the derivation of the transformer options rejects, [getDelta]
    rejects with that error; its calls to the engine are the
    [getDependencies] traversals run for the bundler during the
    derivation, and it asks for no partial traversal and no reordering;
    the graph is unchanged, nothing is memoized, and the consumed paths
    are pending again together with those of the events handled
    meanwhile. *)
Theorem getDelta_options_rejected :
  forall (resetArg : bool) (during : list FileChange)
         (this : DeltaCalculator) (env : Env World) (error : JsError.t),
  snd (getOptions this env) = inl error ->
  let r := delta resetArg during this env in
  let queued :=
    fst (_handleMultipleFileChanges during
           (setPending JsSet.empty JsSet.empty this) env) in
  snd r = inl error /\
  _graph (fst (fst r)) = _graph this /\
  _transformerOptions (fst (fst r)) = None /\
  filter (fun c => negb (isEngineCall c)) (callsSince env (snd (fst r)))
  = startCalls this ++ emissions during this /\
  filter isEngineCall (callsSince env (snd (fst r)))
  = resCalls (snd (startOptions this env)) this /\
  (forall c,
     In c (callsSince env (snd (fst r))) -> isEngineCall c = true ->
     isGetDependenciesCall c) /\
  (forall paths o graph,
     ~ In (CallTraverseDependencies paths o graph)
          (callsSince env (snd (fst r)))) /\
  (forall graph,
     ~ In (CallReorderGraph graph) (callsSince env (snd (fst r)))) /\
  _modifiedFiles (fst (fst r))
  = JsSet.addAll (_modifiedFiles this) (_modifiedFiles queued) /\
  _deletedFiles (fst (fst r))
  = JsSet.addAll (_deletedFiles this) (_deletedFiles queued).
Proof.
  intros resetArg during this env error O r queued.
  set (fresh := setPending JsSet.empty JsSet.empty this) in *.
  destruct (getTransformerOptions_ext fresh this env env
              eq_refl eq_refl eq_refl) as (X & _).
  assert (Of : snd (getOptions fresh env) = inl error) by congruence.
  destruct (getChangedDependencies_rejected_options (_modifiedFiles this)
              (_deletedFiles this) fresh env Of) as (R & M & G & T).
  destruct (getChangedDependencies_during during (_modifiedFiles this)
              (_deletedFiles this) fresh env)
    as (E1 & E2 & E3 & E4 & _ & E6 & E7).
  assert (C : callsSince env (snd (fst r))
              = startCalls this ++ emissions during this ++
                resCalls (snd (startOptions this env)) this).
  { subst r. rewrite getDelta_trace. fold fresh. rewrite O, R.
    now rewrite !app_nil_r. }
  assert (Engine : forall c,
            In c (callsSince env (snd (fst r))) -> isEngineCall c = true ->
            isGetDependenciesCall c).
  { intros c Hc Ec. rewrite C, !in_app_iff in Hc.
    destruct Hc as [Hc | [Hc | Hc]].
    - apply startCalls_not_engine in Hc. congruence.
    - apply emissions_not_engine in Hc. congruence.
    - now apply resumeCalls_fresh in Hc. }
  split; [| split; [| split; [| split; [| split; [| split;
    [exact Engine | split; [| split]]]]]]].
  - subst r. rewrite getDelta_outcome. fold fresh. now rewrite R.
  - subst r. rewrite getDelta_eq. cbv zeta. fold fresh.
    set (b1 := buildWhile _ _ _ _ _) in *.
    rewrite E1, R. simpl. rewrite restoreAfterError_graph, E3, G.
    change (_graph fresh) with (_graph this). now rewrite Nat.eqb_refl.
  - subst r. rewrite getDelta_eq. cbv zeta. fold fresh.
    set (b1 := buildWhile _ _ _ _ _) in *.
    rewrite E1, R. simpl.
    now rewrite restoreAfterError_transformerOptions, E4, T.
  - rewrite C, !filter_app.
    rewrite (@filter_all _ (fun c => negb (isEngineCall c))
               (startCalls this)),
      (@filter_all _ (fun c => negb (isEngineCall c))
         (emissions during this)),
      (@filter_none _ (fun c => negb (isEngineCall c))
         (resCalls (snd (startOptions this env)) this)).
    + now rewrite app_nil_r.
    + intros c Hc. apply resumeCalls_fresh in Hc.
      now destruct Hc as (q & o1 & ->).
    + intros c Hc. apply emissions_not_engine in Hc. now rewrite Hc.
    + intros c Hc. apply startCalls_not_engine in Hc. now rewrite Hc.
  - rewrite C, !filter_app, resumeCalls_engine.
    rewrite (@filter_none _ isEngineCall _ (startCalls_not_engine this)).
    rewrite (@filter_none _ isEngineCall _
               (emissions_not_engine during this)).
    reflexivity.
  - intros paths o graph Hc.
    destruct (Engine _ Hc eq_refl) as (q & o1 & [=]).
  - intros graph Hc.
    destruct (Engine _ Hc eq_refl) as (q & o1 & [=]).
  - subst r. rewrite getDelta_eq. cbv zeta. fold fresh.
    set (b1 := buildWhile _ _ _ _ _) in *.
    rewrite E1, R. simpl.
    rewrite restoreAfterError_modified, restoreAfterError_deleted.
    rewrite E2, E6, E7, M. split; reflexivity.
Qed.

(** ** More about the transformer options *)

Local Abbreviation Later :=
  (later getGlobalTransformOptions getTransformOptionsForEntryFiles
     initialTraverseDependencies traverseDependencies reorderGraph).

(** Options that were derived carry the calculator's options. *)
Lemma calcTransformerOptions_reflects (this : DeltaCalculator)
  (env : Env World) (o : JSTransformerOptions.t) :
  snd (calcOptions this env) = inr o -> reflectsOptions (_options this) o.
Proof.
  unfold _calcTransformerOptions, _calcTransformerOptions_start. simpl.
  destruct (getGlobalTransformOptions (world env)) as [babel root].
  destruct (Options.type (_options this)); simpl.
  - destruct (answerBundler _ _ _ _) as [env1 [e | ir]];
      simpl; intros [= <-]. repeat split.
  - intros [= <-]. repeat split.
Qed.

(** Without memoized options, [getTransformerOptions] derives them and
    memoizes what the derivation resolved to. *)
Lemma getTransformerOptions_derives (this : DeltaCalculator)
  (env : Env World) :
  _transformerOptions this = None ->
  getOptions this env =
  match calcOptions this env with
  | (env3, inl error2) => (this, env3, inl error2)
  | (env3, inr o) => (setTransformerOptions o this, env3, inr o)
  end.
Proof.
  intros O.
  unfold getTransformerOptions, getTransformerOptions_start,
    _calcTransformerOptions.
  rewrite O.
  destruct (_calcTransformerOptions_start _ _ this env) as [env1 d].
  reflexivity.
Qed.

Lemma getTransformerOptions_reflected (this : DeltaCalculator)
  (env : Env World) :
  optionsReflected this ->
  optionsReflected (fst (fst (getOptions this env))).
Proof.
  unfold optionsReflected. intros Inv.
  destruct (_transformerOptions this) as [o |] eqn:O.
  - rewrite (getTransformerOptions_memoized this env O). simpl.
    rewrite O. exact Inv.
  - rewrite (@getTransformerOptions_derives this env O).
    pose proof (calcTransformerOptions_reflects this env) as C.
    destruct (calcOptions this env) as [env1 [e | o]]; simpl in *.
    + rewrite O. exact Inv.
    + intros o' [= <-]. now apply C.
Qed.

(** The build leaves the options alone and memoizes what
    [getTransformerOptions] memoized. *)
Lemma getChangedDependencies_transformerOptions (m d : JsSet.t)
  (this : DeltaCalculator) (env : Env World) :
  let b := build m d this env in
  _transformerOptions (build_this b)
  = _transformerOptions (fst (fst (getOptions this env))).
Proof.
  rewrite ?getChangedDependencies_unfold.
  unfold _getChangedDependencies_resume.
  rewrite ?getTransformerOptions_unfold.
  destruct (resumeOptions _ this _) as [[this1 env1] [e | o]]; simpl;
    [reflexivity |].
  split_build; reflexivity.
Qed.

Lemma restoreAfterError_options (n : nat) (m d : JsSet.t)
  (this : DeltaCalculator) :
  _options (restoreAfterError n m d this) = _options this.
Proof.
  unfold restoreAfterError. simpl. destruct (negb _); reflexivity.
Qed.

(** [getDelta] leaves the options alone and memoizes what the
    [getTransformerOptions] of its build memoized. *)
Lemma getDelta_options (resetArg : bool) (during : list FileChange)
  (this : DeltaCalculator) (env : Env World) :
  let r := delta resetArg during this env in
  _options (fst (fst r)) = _options this /\
  _transformerOptions (fst (fst r))
  = _transformerOptions (fst (fst (getOptions this env))).
Proof.
  intros r. subst r. rewrite getDelta_eq. cbv zeta.
  set (fresh := setPending JsSet.empty JsSet.empty this).
  destruct (getChangedDependencies_during during (_modifiedFiles this)
              (_deletedFiles this) fresh env) as (_ & _ & _ & E4 & _).
  assert (P : _options
                (build_this
                   (buildWhile during (_modifiedFiles this)
                      (_deletedFiles this) fresh env))
              = _options this).
  { rewrite buildDuring_unfold.
    set (env1 := fst (startOptions fresh env)).
    destruct (handleMultipleFileChanges_frame during fresh env1)
      as (F1 & _).
    destruct (getChangedDependencies_resume_frame (_modifiedFiles this)
                (_deletedFiles this) (snd (startOptions fresh env))
                (fst (_handleMultipleFileChanges during fresh env1))
                (snd (_handleMultipleFileChanges during fresh env1)))
      as (G1 & _).
    rewrite G1, F1. reflexivity. }
  pose proof (getChangedDependencies_transformerOptions
                (_modifiedFiles this) (_deletedFiles this) fresh env) as T.
  destruct (getTransformerOptions_ext fresh this env env
              eq_refl eq_refl eq_refl) as (_ & _ & X).
  set (b1 := buildWhile _ _ _ _ _) in *.
  cbv zeta in T.
  assert (Q : _transformerOptions (build_this b1)
              = _transformerOptions (fst (fst (getOptions this env))))
    by (rewrite E4, T, X; reflexivity).
  destruct (build_result b1) as [e | r0]; simpl.
  - now rewrite restoreAfterError_options,
      restoreAfterError_transformerOptions.
  - destruct resetArg; simpl; split; assumption.
Qed.

(** X9. For a calculator that bundles scripts, the first
    [getTransformerOptions] always resolves: it asks the bundler for the
    global transform options only, never for the options of the entry
    files, sets [inlineRequires] to false and memoizes the result. *)
Theorem getTransformerOptions_script :
  forall (this : DeltaCalculator) (env : Env World),
  _transformerOptions this = None ->
  Options.type (_options this) = script ->
  let r := getOptions this env in
  exists o,
    snd r = inr o /\
    JSTransformerOptions.inlineRequires o = IRBool false /\
    reflectsOptions (_options this) o /\
    _transformerOptions (fst (fst r)) = Some o /\
    callsSince env (snd (fst r)) = [CallGetGlobalTransformOptions] /\
    world (snd (fst r)) = world env.
Proof.
  intros this env O S.
  unfold getTransformerOptions, getTransformerOptions_start,
    _calcTransformerOptions_start.
  rewrite O, S. simpl.
  destruct (getGlobalTransformOptions (world env)) as [babel root].
  simpl. eexists. repeat split.
  unfold callsSince. simpl.
  rewrite skipn_app, skipn_all, Nat.sub_diag. reflexivity.
Qed.

(** X10. On every state reachable through the interface, the memoized
    transformer options carry the [assetPlugins], [customTransformOptions],
    [dev], [hot], [minify] and [platform] of the calculator's options. *)
Theorem reachable_options_reflected :
  forall (this : DeltaCalculator) (o : JSTransformerOptions.t),
  Reachable this ->
  _transformerOptions this = Some o ->
  reflectsOptions (_options this) o.
Proof.
  intros this o H. revert o. change (optionsReflected this).
  induction H as [options | l this _ IH | evs this env _ IH
                  | resetArg during this env _ IH | this env _ IH
                  | this _ IH].
  - intros o [=].
  - exact IH.
  - destruct (handleMultipleFileChanges_frame evs this env)
      as (F1 & F2 & _).
    unfold optionsReflected. rewrite F1, F2. exact IH.
  - destruct (getDelta_options resetArg during this env) as (P & Q).
    pose proof (getTransformerOptions_reflected env IH) as R.
    pose proof (getTransformerOptions_spec this env) as (S1 & _).
    unfold optionsReflected in *. rewrite P, Q. rewrite S1 in R. exact R.
  - now apply getTransformerOptions_reflected.
  - exact IH.
Qed.

(** X11. A derivation of the transformer options that rejected is not
    memoized: the calculator is exactly as it was, and a later
    [getTransformerOptions] derives the options again and resolves when
    that derivation does. *)
Theorem getTransformerOptions_rejection_not_memoized :
  forall (this : DeltaCalculator) (env env2 : Env World)
         (error : JsError.t),
  snd (getOptions this env) = inl error ->
  let this1 := fst (fst (getOptions this env)) in
  this1 = this /\
  _transformerOptions this = None /\
  getOptions this1 env2 =
  match calcOptions this env2 with
  | (env3, inl error2) => (this, env3, inl error2)
  | (env3, inr o) => (setTransformerOptions o this, env3, inr o)
  end.
Proof.
  intros this env env2 error H this1. subst this1.
  destruct (_transformerOptions this) as [o |] eqn:O;
    [rewrite (getTransformerOptions_memoized this env O) in H;
     discriminate |].
  rewrite (@getTransformerOptions_derives this env O) in *.
  destruct (calcOptions this env) as [env1 [e | o]]; [| discriminate].
  simpl. split; [reflexivity |]. split; [reflexivity |].
  now apply getTransformerOptions_derives.
Qed.


(** ** More about what the engine is handed *)
(** ** More about what the engine is handed *)

Lemma NoDup_invalidateDeleted (graph : Graph.t) (d : JsSet.t) :
  forall m, NoDup m -> NoDup (invalidateDeleted graph d m).
Proof.
  unfold invalidateDeleted.
  induction d as [| x d IH]; intros m H; simpl; [assumption |].
  apply IH.
  destruct (JsMap.get x (Graph.dependencies graph)); [| assumption].
  now apply JsSetFacts.NoDup_addAll.
Qed.

(** Whatever the build leaves in the consumed modified set is a consumed
    modified path or a dependent of a consumed deleted path. *)
Lemma getChangedDependencies_modifiedFiles_bound (m d : JsSet.t)
  (this : DeltaCalculator) (env : Env World) (p : string) :
  In p (build_modifiedFiles (build m d this env)) ->
  In p (invalidateDeleted (_graph this) d m).
Proof.
  rewrite ?getChangedDependencies_unfold.
  unfold _getChangedDependencies_resume.
  pose proof (getTransformerOptions_spec this env) as H. cbv zeta in H.
  rewrite ?getTransformerOptions_unfold in *.
  destruct (resumeOptions _ this _) as [[this1 env1] [e | o]]; simpl in H;
    destruct H as (_ & _ & _ & H4 & _); simpl.
  - intros Hp. apply In_invalidateDeleted. now left.
  - rewrite H4. split_build; simpl; intros Hp; try assumption;
      apply In_invalidateDeleted; now left.
Qed.

(** On an empty graph the build does not look at the consumed sets. *)
Lemma getChangedDependencies_initial_ignores (m d m' d' : JsSet.t)
  (request : OptionsRequest World) (this : DeltaCalculator)
  (env : Env World) :
  Graph.dependencies (_graph this) = JsMap.empty ->
  let b := resumeBuild m d request this env in
  let b' := resumeBuild m' d' request this env in
  build_result b = build_result b' /\
  build_this b = build_this b' /\
  build_env b = build_env b'.
Proof.
  intros He. unfold _getChangedDependencies_resume.
  pose proof (getTransformerOptions_resume_spec request this env) as H.
  cbv zeta in H.
  destruct (resumeOptions request this env) as [[this1 env1] [e | o]];
    simpl in H; destruct H as (_ & _ & _ & H4 & _); simpl;
    [repeat split |].
  rewrite H4, He. simpl.
  destruct (initialTraverseDependencies _ _ _ _) as [[w g] [e | added]];
    simpl; repeat split.
Qed.

(** X13. On every state reachable through the interface, a partial
    traversal [getDelta] asks the engine for is of a list of paths that is
    not empty and names no path twice. *)
Theorem getDelta_submits_nonempty_distinct :
  forall (this : DeltaCalculator) (resetArg : bool)
         (during : list FileChange) (env : Env World)
         (paths : list string) (o : TraverseOptions) (graph : Graph.t),
  Reachable this ->
  In (CallTraverseDependencies paths o graph)
     (callsSince env (snd (fst (delta resetArg during this env)))) ->
  paths <> [] /\ NoDup paths.
Proof.
  intros this resetArg during env paths o graph Hr Hin.
  rewrite getDelta_trace in Hin. rewrite !in_app_iff in Hin.
  destruct Hin as [Hin | [Hin | [Hin | [Hin | Hin]]]].
  - apply startCalls_not_engine in Hin. discriminate.
  - apply emissions_not_engine in Hin. discriminate.
  - apply resumeCalls_fresh in Hin. destruct Hin as (q & o1 & [=]).
  - destruct (snd (getOptions this env)) as [e | o']; [destruct Hin |].
    unfold engineCalls in Hin.
    destruct (Nat.eqb (JsMap.size _) 0);
      [destruct Hin as [Hin | []]; discriminate |].
    destruct (Nat.eqb (length _) 0) eqn:L; [destruct Hin |].
    destruct Hin as [[= <- _ _] | []]. split.
    + intros E. rewrite E in L. discriminate.
    + unfold modifiedDependencies. apply NoDup_filter.
      apply NoDup_invalidateDeleted.
      now destruct (reachable_wellFormed Hr).
  - destruct (build_result _); [destruct Hin |].
    destruct resetArg; [destruct Hin as [Hin | []]; discriminate
                       | destruct Hin].
Qed.

(** X14. After [end()], a [getDelta] that resolves asked the engine for an
    initial traversal of an empty graph with the entry points of the
    options, and returns a reset delta: the teardown forces a full
    rebuild, whatever the graph and the pending sets were. *)
Theorem end_then_getDelta_rebuilds :
  forall (this this' : DeltaCalculator) (resetArg : bool)
         (during : list FileChange) (env env' : Env World)
         (result : DeltaResult),
  delta resetArg during (end_ this) env = (this', env', inr result) ->
  reset result = true /\
  deleted result = JsSet.empty /\
  exists o,
    In (CallInitialTraverseDependencies
          {| Graph.dependencies := JsMap.empty;
             Graph.entryPoints := Options.entryPoints (_options this) |}
          {| transformerOptions := o;
             type := Options.type (_options this) |})
       (callsSince env env').
Proof.
  intros this this' resetArg during env env' result H.
  destruct (getDelta_initial _ _ _ _ (eq_refl : Graph.dependencies
              (_graph (end_ this)) = JsMap.empty) H)
    as (Rs & D & o & g & _ & T).
  split; [exact Rs |]. split; [exact D |].
  exists o. rewrite T, !in_app_iff. right. right. right. left. now left.
Qed.

(** X15. After a [getDelta] that rejected, the pending deleted set holds
    the consumed deleted paths and those of the events handled meanwhile,
    and nothing else; the pending modified set holds nothing but the
    consumed modified paths, those of the events handled meanwhile, and
    the dependents of consumed deleted paths that have an edge. *)
Theorem getDelta_error_pending_exact :
  forall (resetArg : bool) (during : list FileChange)
         (this this' : DeltaCalculator) (env env' : Env World)
         (error : JsError.t),
  delta resetArg during this env = (this', env', inl error) ->
  let queued :=
    fst (_handleMultipleFileChanges during
           (setPending JsSet.empty JsSet.empty this) env) in
  (forall p,
     In p (_deletedFiles this') <->
     In p (_deletedFiles this) \/ In p (_deletedFiles queued)) /\
  (forall p,
     In p (_modifiedFiles this') ->
     In p (_modifiedFiles this) \/
     In p (_modifiedFiles queued) \/
     exists filePath edge,
       In filePath (_deletedFiles this) /\
       JsMap.get filePath (Graph.dependencies (_graph this)) = Some edge /\
       In p (Edge.inverseDependencies edge)).
Proof.
  intros resetArg during this this' env env' error H queued.
  rewrite getDelta_eq in H. cbv zeta in H.
  set (fresh := setPending JsSet.empty JsSet.empty this) in *.
  destruct (getChangedDependencies_during during (_modifiedFiles this)
              (_deletedFiles this) fresh env)
    as (_ & E2 & _ & _ & _ & E6 & E7).
  set (b1 := buildWhile _ _ _ _ _) in *.
  destruct (build_result b1) as [e | r0];
    [| destruct resetArg; discriminate].
  injection H as <- _ _.
  rewrite restoreAfterError_modified, restoreAfterError_deleted, E6, E7.
  split; intros p; rewrite JsSetFacts.In_addAll; [reflexivity |].
  intros [Hp | Hp]; [| right; now left].
  rewrite E2 in Hp.
  apply getChangedDependencies_modifiedFiles_bound in Hp.
  apply In_invalidateDeleted in Hp.
  destruct Hp as [Hp | Hp]; [now left | right; now right].
Qed.

(** X16. On an empty graph the pending sets do not influence the delta:
    [getDelta] settles with the same outcome, leaves the same graph and
    makes the same calls as on the calculator with empty pending sets. *)
Theorem getDelta_empty_graph_ignores_pending :
  forall (resetArg : bool) (during : list FileChange)
         (this : DeltaCalculator) (env : Env World),
  Graph.dependencies (_graph this) = JsMap.empty ->
  let r := delta resetArg during this env in
  let r0 :=
    delta resetArg during (setPending JsSet.empty JsSet.empty this) env in
  snd r = snd r0 /\
  _graph (fst (fst r)) = _graph (fst (fst r0)) /\
  snd (fst r) = snd (fst r0).
Proof.
  intros resetArg during this env He r r0. subst r r0.
  rewrite !getDelta_eq. cbv zeta.
  change (setPending JsSet.empty JsSet.empty
            (setPending JsSet.empty JsSet.empty this))
    with (setPending JsSet.empty JsSet.empty this).
  rewrite !buildDuring_unfold.
  set (fresh := setPending JsSet.empty JsSet.empty this).
  set (request := snd (startOptions fresh env)).
  set (st := _handleMultipleFileChanges during fresh _).
  assert (Hst : Graph.dependencies (_graph (fst st)) = JsMap.empty).
  { destruct (handleMultipleFileChanges_frame during fresh
                (fst (startOptions fresh env)))
      as (_ & _ & F3 & _).
    fold st in F3. rewrite F3. exact He. }
  destruct (getChangedDependencies_initial_ignores
              (_modifiedFiles this) (_deletedFiles this)
              (_modifiedFiles fresh) (_deletedFiles fresh)
              request (fst st) (snd st) Hst) as (R & T & E).
  set (b := resumeBuild (_modifiedFiles this) _ request (fst st) (snd st))
    in *.
  set (b' := resumeBuild (_modifiedFiles fresh) _ request (fst st) (snd st))
    in *.
  rewrite <- R, <- T, <- E.
  destruct (build_result b) as [e | r0]; simpl.
  - rewrite !restoreAfterError_graph. repeat split.
  - destruct resetArg; repeat split.
Qed.

(** ** More about failures *)

Local Abbreviation ReachableWithoutError :=
  (reachableWithoutError getGlobalTransformOptions
     getTransformOptionsForEntryFiles initialTraverseDependencies
     traverseDependencies reorderGraph).

(** The tracked modified paths grow with the pending sets. *)
Lemma modifiedDependencies_mono (graph : Graph.t) (m d m' d' : JsSet.t)
  (p : string) :
  (forall x, In x m -> In x m') ->
  (forall x, In x d -> In x d') ->
  In p (modifiedDependencies graph (invalidateDeleted graph d m)) ->
  In p (modifiedDependencies graph (invalidateDeleted graph d' m')).
Proof.
  intros Hm Hd. unfold modifiedDependencies.
  rewrite !filter_In, !In_invalidateDeleted.
  intros [[H | (f & e & H1 & H2 & H3)] Hh]; split; try assumption.
  - left. now apply Hm.
  - right. exists f, e. auto.
Qed.

(** X17. After a [getDelta] that rejected and left the graph as it was,
    the next [getDelta] has every path of the rejected partial traversal
    among the tracked modified paths it traverses: an error does not turn
    the next delta into an empty one. *)
Theorem getDelta_error_retry_resubmits :
  forall (resetArg : bool) (during : list FileChange)
         (this this' : DeltaCalculator) (env env' : Env World)
         (error : JsError.t) (p : string),
  delta resetArg during this env = (this', env', inl error) ->
  _graph (build_this
            (build (_modifiedFiles this) (_deletedFiles this)
               (setPending JsSet.empty JsSet.empty this) env))
  = _graph this ->
  In p (modifiedDependencies (_graph this)
          (invalidateDeleted (_graph this) (_deletedFiles this)
             (_modifiedFiles this))) ->
  _graph this' = _graph this /\
  In p (modifiedDependencies (_graph this')
          (invalidateDeleted (_graph this') (_deletedFiles this')
             (_modifiedFiles this'))).
Proof.
  intros resetArg during this this' env env' error p H G Hp.
  rewrite getDelta_eq in H. cbv zeta in H.
  set (fresh := setPending JsSet.empty JsSet.empty this) in *.
  destruct (getChangedDependencies_during during (_modifiedFiles this)
              (_deletedFiles this) fresh env) as (_ & _ & E3 & _).
  pose proof (fun x => @getChangedDependencies_modifiedFiles during
                (_modifiedFiles this) (_deletedFiles this) fresh env x)
    as M.
  set (b1 := buildWhile _ _ _ _ _) in *.
  destruct (build_result b1) as [e | r0];
    [| destruct resetArg; discriminate].
  injection H as <- _ _.
  assert (G' : _graph (restoreAfterError
                         (JsMap.size (Graph.dependencies (_graph this)))
                         (build_modifiedFiles b1) (_deletedFiles this)
                         (build_this b1)) = _graph this).
  { rewrite restoreAfterError_graph, E3, G, Nat.eqb_refl. reflexivity. }
  split; [exact G' |]. rewrite G'.
  rewrite restoreAfterError_modified, restoreAfterError_deleted.
  revert Hp. apply modifiedDependencies_mono;
    intros x Hx; apply JsSetFacts.In_addAll; left; auto.
Qed.

(** A [getDelta] that resolves leaves as pending sets the events handled
    meanwhile, applied to empty sets. *)
Lemma getDelta_resolved_pending (resetArg : bool)
  (during : list FileChange) (this this' : DeltaCalculator)
  (env env' : Env World) (result : DeltaResult) :
  delta resetArg during this env = (this', env', inr result) ->
  let queued :=
    fst (_handleMultipleFileChanges during
           (setPending JsSet.empty JsSet.empty this) env) in
  _modifiedFiles this' = _modifiedFiles queued /\
  _deletedFiles this' = _deletedFiles queued.
Proof.
  intros H queued. rewrite getDelta_eq in H. cbv zeta in H.
  set (fresh := setPending JsSet.empty JsSet.empty this) in *.
  destruct (getChangedDependencies_during during (_modifiedFiles this)
              (_deletedFiles this) fresh env)
    as (_ & _ & _ & _ & _ & E6 & E7).
  set (b1 := buildWhile _ _ _ _ _) in *.
  destruct (build_result b1) as [e | r0]; [discriminate |].
  destruct resetArg; injection H as <- _ _; simpl; split; assumption.
Qed.

(** X18. As long as no [getDelta] rejects, no path is pending both as
    modified and as deleted, whatever the watcher reports and whenever it
    does. *)
Theorem reachableWithoutError_pending_disjoint :
  forall (this : DeltaCalculator),
  ReachableWithoutError this ->
  JsSet.disjoint (_modifiedFiles this) (_deletedFiles this).
Proof.
  intros this H.
  induction H as [options | l this _ IH | evs this env _ IH
                  | resetArg during this this' env env' result _ IH Hd
                  | this env _ IH | this _ IH].
  - intros x [].
  - exact IH.
  - now apply handleMultipleFileChanges_disjoint.
  - destruct (getDelta_resolved_pending _ _ _ _ Hd) as (Pm & Pd).
    rewrite Pm, Pd. apply handleMultipleFileChanges_disjoint.
    intros x [].
  - pose proof (getTransformerOptions_spec this env) as (_ & S2 & S3 & _).
    rewrite S2, S3. exact IH.
  - intros x [].
Qed.

End DeltaCalculatorFacts.

(** ** Facts about the change handler *)

Section ConnectionFacts.

Variable World : Type.
Variable getDelta :
  Graph.t -> bool -> World -> World * (JsError.t + DeltaResult).
Variable createModuleId : string -> string.
Variable wrapModule : (string -> string) -> Edge.t -> string.

Local Abbreviation handle :=
  (HmrServer.handleFileChange getDelta createModuleId wrapModule).

(** C8. Whatever the delta computation does, the handler of a change
    notification hands exactly three messages to the client, in this
    order: [update-start]; an [update] when the delta resolved, or an
    [error] whose body is the rejection normalised to [{type, message,
    errors: [{description, filename, lineNumber}]}] when it rejected;
    [update-done].  The handler itself always returns. *)
Theorem handleFileChange_three_messages :
  forall (client : HmrServer.Client) (w : World),
  let r := handle client w in
  fst r = fst (getDelta (HmrServer.graph client) false w) /\
  HmrServer.graph (snd r) = HmrServer.graph client /\
  exists response,
    HmrServer.sent (snd r) =
      HmrServer.sent client ++
      [HmrServer.UpdateStart; response; HmrServer.UpdateDone] /\
    match snd (getDelta (HmrServer.graph client) false w) with
    | inl error =>
        response =
        HmrServer.Error
          {| HmrServer.type := JsError.type error;
             HmrServer.message := JsError.message error;
             HmrServer.errors :=
               [ {| HmrServer.description := JsError.message error;
                    HmrServer.filename := JsError.filename error;
                    HmrServer.lineNumber := JsError.lineNumber error |} ] |}
    | inr delta =>
        exists body,
          response = HmrServer.Update body /\
          HmrServer.modules body =
            map (fun edge =>
                   {| HmrServer.id := createModuleId (Edge.path edge);
                      HmrServer.code := wrapModule createModuleId edge |})
                (map snd (modified delta))
    end.
Proof.
  intros client w. unfold HmrServer.handleFileChange,
    HmrServer._prepareResponse, HmrServer.sendMessage. simpl.
  destruct (getDelta (HmrServer.graph client) false w) as [w' [error | delta]];
    simpl; (split; [reflexivity |]); (split; [reflexivity |]);
    eexists; (split; [rewrite <- !app_assoc; reflexivity |]).
  - reflexivity.
  - eexists. split; reflexivity.
Qed.

End ConnectionFacts.

(** ** The small project, run *)

Lemma fixture_initial_added_full :
  forall graph o onProgress w w' graph' added,
  Graph.dependencies graph = JsMap.empty ->
  Fixture.initialTraverseDependencies graph o onProgress w
  = (w', graph', inr added) ->
  Permutation added (Graph.dependencies graph').
Proof.
  intros graph o onProgress w w' graph' added _ H.
  unfold Fixture.initialTraverseDependencies in H.
  destruct w as [| [| w]]; try discriminate.
  injection H as _ <- <-. apply Permutation_refl.
Qed.

Lemma fixture_reorder_permutes :
  forall graph,
  Permutation (Graph.dependencies (Fixture.reorderGraph graph))
              (Graph.dependencies graph).
Proof.
  intros graph. simpl. apply Permutation_sym, Permutation_rev.
Qed.

Lemma fixture_built_reachable : Fixture.reachable Fixture.built.
Proof. apply reach_getDelta, reach_new. Qed.

Lemma fixture_after_reachable (eventsQueue : list FileChange) :
  Fixture.reachable (Fixture.after eventsQueue).
Proof. apply reach_changes, fixture_built_reachable. Qed.

(** The first delta of the project is a reset delta with both edges. *)
Example fixture_first_delta :
  snd (Fixture.getDelta false [] (new Fixture.options) (Fixture.env 0))
  = inr {| modified := Fixture.edges; deleted := []; reset := true |}.
Proof. reflexivity. Qed.

(** [/b] is deleted and an untracked file changes: the dependent [/c] of
    [/b] is what is traversed, and what the delta holds. *)
Lemma getDelta_submits_tracked_paths_witness :
  let this := Fixture.after [Fixture.delete "/b"; Fixture.change "/x"] in
  let r := Fixture.getDelta false [] this (Fixture.env 0) in
  let calls := callsSince (Fixture.env 0) (snd (fst r)) in
  Graph.dependencies (_graph this) <> JsMap.empty /\
  _modifiedFiles this = ["/x"] /\
  _deletedFiles this = ["/b"] /\
  (forall paths o graph,
     In (CallTraverseDependencies paths o graph) calls ->
     paths = ["/c"] /\ graph = _graph this) /\
  (exists o, In (CallTraverseDependencies ["/c"] o (_graph this)) calls) /\
  snd r
  = inr {| modified := [("/c", Fixture.edgeC)];
           deleted := JsSet.empty;
           reset := false |}.
Proof.
  intros this r calls.
  assert (Hne : Graph.dependencies (_graph this) <> JsMap.empty)
    by (vm_compute; discriminate).
  assert (Heq : Fixture.getDelta false [] this (Fixture.env 0)
                = (fst (fst r), snd (fst r), snd r))
    by (vm_compute; reflexivity).
  destruct (getDelta_submits_tracked_paths
              Fixture.getGlobalTransformOptions
              Fixture.getTransformOptionsForEntryFiles
              Fixture.initialTraverseDependencies
              Fixture.traverseDependencies Fixture.reorderGraph
              false [] this (Fixture.env 0) Hne Heq)
    as (_ & _ & Hcall & _ & _ & Hres & _).
  split; [exact Hne |]. split; [reflexivity |]. split; [reflexivity |].
  split; [| split].
  - intros paths o graph Hin.
    apply Hcall in Hin. destruct Hin as (_ & -> & -> & _).
    split; reflexivity.
  - eexists. apply Hcall.
    split; [vm_compute; discriminate |].
    split; [reflexivity |]. split; [reflexivity |].
    eexists. split; reflexivity.
  - edestruct Hres as (w & graph & settled & Tr & M);
      [reflexivity | vm_compute; discriminate |].
    vm_compute in Tr. injection Tr as <- <- <-. exact (proj2 M).
Defined.

(** A change to [/b] only, and a reset delta: the delta also holds [/c],
    which did not change and depends on no deleted module. *)
Lemma getDelta_reset_returns_untouched_module :
  let this := Fixture.after [Fixture.change "/b"] in
  let expanded :=
    invalidateDeleted (_graph this) (_deletedFiles this)
      (_modifiedFiles this) in
  let submitted := modifiedDependencies (_graph this) expanded in
  exists result,
    snd (Fixture.getDelta true [] this (Fixture.env 0)) = inr result /\
    Graph.dependencies (_graph this) <> JsMap.empty /\
    expanded = ["/b"] /\
    submitted = ["/b"] /\
    JsMap.keys (modified result) = ["/b"; "/c"] /\
    ~ (forall p, In p (JsMap.keys (modified result)) <-> In p submitted).
Proof.
  intros this expanded submitted. eexists.
  split; [vm_compute; reflexivity |].
  split; [vm_compute; discriminate |].
  split; [reflexivity |]. split; [reflexivity |].
  split; [reflexivity |].
  intros H. specialize (H "/c"). destruct H as [H _].
  assert (Hin : In "/c" ["/b"; "/c"]) by (right; now left).
  apply H in Hin. vm_compute in Hin.
  destruct Hin as [Hin | []]. discriminate.
Defined.

(** A change to [/b] whose traversal rejects after the engine added an
    edge: the graph is emptied. *)
Lemma getDelta_error_resets_graph_witness :
  let this := Fixture.after [Fixture.change "/b"] in
  let r := Fixture.getDelta false [] this (Fixture.env 2) in
  snd r = inl Fixture.transformError /\
  _graph (fst (fst r))
  = {| Graph.dependencies := JsMap.empty; Graph.entryPoints := ["/c"] |}.
Proof.
  intros this r.
  assert (Heq : Fixture.getDelta false [] this (Fixture.env 2)
                = (fst (fst r), snd (fst r), inl Fixture.transformError))
    by (vm_compute; reflexivity).
  destruct (getDelta_error_resets_graph
              Fixture.getGlobalTransformOptions
              Fixture.getTransformOptionsForEntryFiles
              Fixture.initialTraverseDependencies
              Fixture.traverseDependencies Fixture.reorderGraph
              false [] this (Fixture.env 2) Heq) as (_ & Hreset & _).
  split; [reflexivity |].
  apply Hreset. vm_compute. discriminate.
Defined.

(** A change to [/b] and a deletion whose traversal rejects: both are
    pending again. *)
Lemma getDelta_error_restores_pending_witness :
  let this := Fixture.after [Fixture.change "/b"; Fixture.delete "/x"] in
  let r := Fixture.getDelta false [] this (Fixture.env 1) in
  snd r = inl Fixture.transformError /\
  In "/b" (_modifiedFiles (fst (fst r))) /\
  In "/x" (_deletedFiles (fst (fst r))).
Proof.
  intros this r.
  assert (Heq : Fixture.getDelta false [] this (Fixture.env 1)
                = (fst (fst r), snd (fst r), inl Fixture.transformError))
    by (vm_compute; reflexivity).
  destruct (getDelta_error_restores_pending
              Fixture.getGlobalTransformOptions
              Fixture.getTransformOptionsForEntryFiles
              Fixture.initialTraverseDependencies
              Fixture.traverseDependencies Fixture.reorderGraph
              false [] this (Fixture.env 1) Heq) as (Hm & Hd).
  split; [reflexivity |].
  split; [apply Hm | apply Hd]; vm_compute; auto.
Defined.

(** A reset delta after a change to [/b]: the whole graph, reordered. *)
Lemma getDelta_reset_returns_reordered_graph_witness :
  let this := Fixture.after [Fixture.change "/b"] in
  let r := Fixture.getDelta true [] this (Fixture.env 0) in
  exists result,
    snd r = inr result /\
    reset result = true /\
    deleted result = JsSet.empty /\
    modified result = rev Fixture.edges.
Proof.
  intros this r.
  eassert (Heq : Fixture.getDelta true [] this (Fixture.env 0)
                 = (fst (fst r), snd (fst r), inr _))
    by (vm_compute; reflexivity).
  destruct (getDelta_reset_returns_reordered_graph
              Fixture.getGlobalTransformOptions
              Fixture.getTransformOptionsForEntryFiles
              Fixture.initialTraverseDependencies
              Fixture.traverseDependencies Fixture.reorderGraph
              [] this (Fixture.env 0) Heq) as (H1 & H2 & H3 & _).
  eexists. split; [reflexivity |].
  split; [exact H1 |]. split; [exact H2 | exact H3].
Defined.

(** The first delta, requested as a reset delta. *)
Lemma getDelta_empty_graph_initial_witness :
  let this := new Fixture.options in
  let r := Fixture.getDelta true [] this (Fixture.env 0) in
  Graph.dependencies (_graph this) = JsMap.empty /\
  exists result added,
    snd r = inr result /\
    reset result = true /\
    Permutation (modified result) added /\
    forall paths o graph,
      ~ In (CallTraverseDependencies paths o graph)
           (callsSince (Fixture.env 0) (snd (fst r))).
Proof.
  intros this r.
  eassert (Heq : Fixture.getDelta true [] this (Fixture.env 0)
                 = (fst (fst r), snd (fst r), inr _))
    by (vm_compute; reflexivity).
  destruct (getDelta_empty_graph_initial
              Fixture.getGlobalTransformOptions
              Fixture.getTransformOptionsForEntryFiles
              Fixture.initialTraverseDependencies
              Fixture.traverseDependencies Fixture.reorderGraph
              fixture_initial_added_full fixture_reorder_permutes
              true [] this (Fixture.env 0) eq_refl Heq)
    as (o & w & graph & added & _ & _ & _ & Hn & _ & _ & Hr & _ & _ & _
        & Hp).
  split; [reflexivity |].
  eexists _, added. split; [reflexivity |].
  split; [exact Hr |]. split; [exact Hp | exact Hn].
Defined.

(** Changes to untracked files only: the empty delta, the graph as it
    was. *)
Lemma getDelta_no_tracked_change_witness :
  let this := Fixture.after [Fixture.change "/x"; Fixture.delete "/y"] in
  let r := Fixture.getDelta false [Fixture.change "/z"] this (Fixture.env 0) in
  snd r
  = inr {| modified := JsMap.empty; deleted := JsSet.empty; reset := false |}
  /\ _graph (fst (fst r)) = _graph this.
Proof.
  intros this r.
  assert (Hne : Graph.dependencies (_graph this) <> JsMap.empty)
    by (vm_compute; discriminate).
  assert (Hp : modifiedDependencies (_graph this)
                 (invalidateDeleted (_graph this) (_deletedFiles this)
                    (_modifiedFiles this)) = [])
    by (vm_compute; reflexivity).
  destruct (getDelta_no_tracked_change [Fixture.change "/z"] (Fixture.env 0)
              (fixture_after_reachable _) Hne Hp) as (H1 & H2 & _).
  split; [exact H1 | exact H2].
Defined.

(** The options derived before [end()] are the options after it, in any
    world. *)
Lemma end_keeps_transformerOptions_witness :
  let r := Fixture.getTransformerOptions (new Fixture.options)
             (Fixture.env 0) in
  snd (Fixture.getTransformerOptions (end_ (fst (fst r))) (Fixture.env 1))
  = snd r.
Proof.
  intros r.
  eassert (Heq : Fixture.getTransformerOptions (new Fixture.options)
                   (Fixture.env 0)
                 = (fst (fst r), snd (fst r), inr _))
    by (vm_compute; reflexivity).
  destruct (end_keeps_transformerOptions
              Fixture.getGlobalTransformOptions
              Fixture.getTransformOptionsForEntryFiles
              Fixture.initialTraverseDependencies
              (new Fixture.options) (Fixture.env 0) (Fixture.env 1) Heq)
    as (H & _).
  unfold Fixture.getTransformerOptions at 1. rewrite H. reflexivity.
Defined.

(** C9, on the code.  [/c] requires [/b]; both files are deleted and the
    traversal of [/c], which the deletion of [/b] invalidated, rejects.
    The pending sets were disjoint when [getDelta] was called; in the
    state the error is re-raised in, [/c] is pending as modified and as
    deleted. *)
Theorem getDelta_error_overlapping_pending :
  let this := Fixture.after [Fixture.delete "/b"; Fixture.delete "/c"] in
  let r := Fixture.getDelta false [] this (Fixture.env 1) in
  Fixture.reachable this /\
  _modifiedFiles this = [] /\
  _deletedFiles this = ["/b"; "/c"] /\
  JsSet.disjoint (_modifiedFiles this) (_deletedFiles this) /\
  snd r = inl Fixture.transformError /\
  _modifiedFiles (fst (fst r)) = ["/c"] /\
  _deletedFiles (fst (fst r)) = ["/b"; "/c"] /\
  ~ JsSet.disjoint (_modifiedFiles (fst (fst r)))
                   (_deletedFiles (fst (fst r))).
Proof.
  intros this r.
  split; [apply fixture_after_reachable |].
  split; [reflexivity |]. split; [reflexivity |].
  split; [intros x [] |].
  split; [reflexivity |]. split; [reflexivity |]. split; [reflexivity |].
  intros H. apply (H "/c"); vm_compute; auto.
Qed.

(** The error case of the HMR test: the delta rejects with a transform
    error and the client receives the three messages. *)
Example hmr_transform_error :
  HmrServer.sent
    (snd (HmrServer.handleFileChange
            (fun _ _ (w : unit) => (w, inl Fixture.transformError))
            (fun path => String.append path "-id")
            (fun _ edge => code (Edge.output edge))
            {| HmrServer.graph :=
                 {| Graph.dependencies := JsMap.empty;
                    Graph.entryPoints := ["/root/EntryPoint.js"] |};
               HmrServer.sent := [] |}
            tt))
  = [ HmrServer.UpdateStart;
      HmrServer.Error
        {| HmrServer.type := Some "TransformError";
           HmrServer.message := "test syntax error";
           HmrServer.errors :=
             [ {| HmrServer.description := "test syntax error";
                  HmrServer.filename := Some "EntryPoint.js";
                  HmrServer.lineNumber := Some 123%Z |} ] |};
      HmrServer.UpdateDone ].
Proof. reflexivity. Qed.

(** ** The small project, run further *)

(** [/a] changed, then deleted, then another file changed: [/a] is
    pending as deleted only. *)
Lemma handleMultipleFileChanges_last_event_wins_witness :
  let st :=
    _handleMultipleFileChanges
      ([Fixture.change "/a"] ++ Fixture.delete "/a" :: [Fixture.change "/b"])
      (new Fixture.options) (Fixture.env 0) in
  In "/a" (_deletedFiles (fst st)) /\ ~ In "/a" (_modifiedFiles (fst st)).
Proof.
  assert (H : forall ev', In ev' [Fixture.change "/b"] ->
                          filePath ev' <> filePath (Fixture.delete "/a"))
    by (intros ev' [<- | []]; vm_compute; discriminate).
  exact (handleMultipleFileChanges_last_event_wins
           [Fixture.change "/a"] [Fixture.change "/b"] (Fixture.delete "/a")
           (new Fixture.options) (Fixture.env 0) H).
Defined.

(** A deletion and a change reported on top of a pending change. *)
Lemma handleMultipleFileChanges_keeps_disjoint_witness :
  let this := Fixture.after [Fixture.change "/b"] in
  let st :=
    _handleMultipleFileChanges [Fixture.delete "/b"; Fixture.change "/c"]
      this (Fixture.env 0) in
  JsSet.disjoint (_modifiedFiles this) (_deletedFiles this) /\
  JsSet.disjoint (_modifiedFiles (fst st)) (_deletedFiles (fst st)).
Proof.
  intros this st.
  assert (H : JsSet.disjoint (_modifiedFiles this) (_deletedFiles this))
    by (intros x _ Hd; vm_compute in Hd; exact Hd).
  split; [exact H |].
  exact (handleMultipleFileChanges_keeps_disjoint
           [Fixture.delete "/b"; Fixture.change "/c"] this (Fixture.env 0) H).
Defined.

(** A delta for a change to [/b], then a delta right after it. *)
Lemma getDelta_then_getDelta_is_empty_witness :
  let this := Fixture.after [Fixture.change "/b"] in
  let r := Fixture.getDelta false [] this (Fixture.env 0) in
  let r2 :=
    Fixture.getDelta false [Fixture.change "/x"] (fst (fst r))
      (Fixture.env 0) in
  snd r2
  = inr {| modified := JsMap.empty; deleted := JsSet.empty; reset := false |}.
Proof.
  intros this r r2.
  eassert (Heq : Fixture.getDelta false [] this (Fixture.env 0)
                 = (fst (fst r), snd (fst r), inr _))
    by (vm_compute; reflexivity).
  assert (Hne : Graph.dependencies (_graph (fst (fst r))) <> JsMap.empty)
    by (vm_compute; discriminate).
  exact (proj1 (getDelta_then_getDelta_is_empty
                  Fixture.getGlobalTransformOptions
                  Fixture.getTransformOptionsForEntryFiles
                  Fixture.initialTraverseDependencies
                  Fixture.traverseDependencies Fixture.reorderGraph
                  false this (Fixture.env 0) (Fixture.env 0)
                  [Fixture.change "/x"] Heq Hne)).
Defined.

(** A traversal that rejects after adding an edge, then a delta in a
    world where every file transforms. *)
Lemma getDelta_error_then_full_rebuild_witness :
  let this := Fixture.after [Fixture.change "/b"] in
  let r := Fixture.getDelta false [] this (Fixture.env 2) in
  let r2 := Fixture.getDelta false [] (fst (fst r)) (Fixture.env 0) in
  snd r = inl Fixture.transformError /\
  exists result, snd r2 = inr result /\ reset result = true.
Proof.
  intros this r r2.
  assert (Heq : Fixture.getDelta false [] this (Fixture.env 2)
                = (fst (fst r), snd (fst r), inl Fixture.transformError))
    by (vm_compute; reflexivity).
  eassert (Heq2 : Fixture.getDelta false [] (fst (fst r)) (Fixture.env 0)
                  = (fst (fst r2), snd (fst r2), inr _))
    by (vm_compute; reflexivity).
  assert (Hsz :
    JsMap.size (Graph.dependencies (_graph (build_this
      (_getChangedDependencies Fixture.getGlobalTransformOptions
         Fixture.getTransformOptionsForEntryFiles
         Fixture.initialTraverseDependencies Fixture.traverseDependencies
         (_modifiedFiles this) (_deletedFiles this)
         (setPending JsSet.empty JsSet.empty this) (Fixture.env 2)))))
    <> JsMap.size (Graph.dependencies (_graph this)))
    by (vm_compute; discriminate).
  destruct (getDelta_error_then_full_rebuild
              Fixture.getGlobalTransformOptions
              Fixture.getTransformOptionsForEntryFiles
              Fixture.initialTraverseDependencies
              Fixture.traverseDependencies Fixture.reorderGraph
              false [] this (Fixture.env 2) Heq Hsz
              false [] (Fixture.env 0) Heq2) as (_ & Hr & _).
  split; [reflexivity |].
  eexists. split; [reflexivity | exact Hr].
Defined.

(** The traversal the bundler asks for while the options are derived
    rejects: the first delta rejects with its error, the only call to the
    engine is that traversal, and the change reported before it is
    pending again. *)
Lemma getDelta_options_rejected_witness :
  let this :=
    fst (_handleMultipleFileChanges [Fixture.change "/c"]
           (new Fixture.options) (Fixture.env 1)) in
  let r := Fixture.getDelta false [] this (Fixture.env 1) in
  let calls := callsSince (Fixture.env 1) (snd (fst r)) in
  snd r = inl Fixture.transformError /\
  _graph (fst (fst r)) = _graph this /\
  _modifiedFiles (fst (fst r)) = ["/c"] /\
  filter isEngineCall calls
  = [CallInitialTraverseDependencies
       {| Graph.dependencies := JsMap.empty; Graph.entryPoints := ["/c"] |}
       (getDependenciesOptions this
          (Fixture.getGlobalTransformOptions 1))] /\
  (forall paths o graph,
     ~ In (CallTraverseDependencies paths o graph) calls).
Proof.
  intros this r calls.
  assert (O : snd (Fixture.getTransformerOptions this (Fixture.env 1))
              = inl Fixture.transformError)
    by (vm_compute; reflexivity).
  destruct (getDelta_options_rejected
              Fixture.getGlobalTransformOptions
              Fixture.getTransformOptionsForEntryFiles
              Fixture.initialTraverseDependencies
              Fixture.traverseDependencies Fixture.reorderGraph
              false [] this (Fixture.env 1) O)
    as (H1 & H2 & _ & _ & H5 & _ & H7 & _ & H9 & _).
  split; [exact H1 |]. split; [exact H2 |]. split; [exact H9 |].
  split; [exact H5 | exact H7].
Defined.

(** The options of a script bundle. *)
Lemma getTransformerOptions_script_witness :
  let r := Fixture.getTransformerOptions (new scriptOptions) (Fixture.env 0) in
  exists o,
    snd r = inr o /\
    JSTransformerOptions.inlineRequires o = IRBool false /\
    callsSince (Fixture.env 0) (snd (fst r)) = [CallGetGlobalTransformOptions].
Proof.
  intros r.
  destruct (getTransformerOptions_script
              Fixture.getGlobalTransformOptions
              Fixture.getTransformOptionsForEntryFiles
              Fixture.initialTraverseDependencies
              (new scriptOptions) (Fixture.env 0) eq_refl eq_refl)
    as (o & H1 & H2 & _ & _ & H5 & _).
  exists o. split; [exact H1 |]. split; [exact H2 | exact H5].
Defined.

(** The options memoized by the first delta. *)
Lemma reachable_options_reflected_witness :
  exists o,
    _transformerOptions Fixture.built = Some o /\
    reflectsOptions Fixture.options o.
Proof.
  eassert (O : _transformerOptions Fixture.built = Some _)
    by (vm_compute; reflexivity).
  eexists. split; [exact O |].
  exact (reachable_options_reflected fixture_built_reachable O).
Defined.

(** The bundler cannot derive the options; a later call derives them. *)
Lemma getTransformerOptions_rejection_not_memoized_witness :
  let this := new Fixture.options in
  let r :=
    getTransformerOptions Fixture.getGlobalTransformOptions
      flakyTransformOptionsForEntryFiles
      Fixture.initialTraverseDependencies this (Fixture.env 3) in
  snd r = inl Fixture.transformError /\ fst (fst r) = this.
Proof.
  intros this r.
  assert (O : snd r = inl Fixture.transformError)
    by (vm_compute; reflexivity).
  split; [exact O |].
  exact (proj1 (getTransformerOptions_rejection_not_memoized
                  Fixture.getGlobalTransformOptions
                  flakyTransformOptionsForEntryFiles
                  Fixture.initialTraverseDependencies
                  this (Fixture.env 3) (Fixture.env 0) O)).
Defined.


(** The partial traversal for a change to [/b]. *)
Lemma getDelta_submits_nonempty_distinct_witness :
  exists o graph,
    In (CallTraverseDependencies ["/b"] o graph)
       (callsSince (Fixture.env 0)
          (snd (fst (Fixture.getDelta false []
                       (Fixture.after [Fixture.change "/b"])
                       (Fixture.env 0))))) /\
    ["/b"] <> [] /\ NoDup ["/b"].
Proof.
  eassert (Hin :
    In (CallTraverseDependencies ["/b"] _ _)
       (callsSince (Fixture.env 0)
          (snd (fst (Fixture.getDelta false []
                       (Fixture.after [Fixture.change "/b"])
                       (Fixture.env 0))))))
    by (vm_compute; left; reflexivity).
  eexists _, _. split; [exact Hin |].
  exact (getDelta_submits_nonempty_distinct false [] (Fixture.env 0) _ _ _
           (fixture_after_reachable [Fixture.change "/b"]) Hin).
Defined.

(** A delta after the teardown of the built calculator. *)
Lemma end_then_getDelta_rebuilds_witness :
  let r := Fixture.getDelta false [] (end_ Fixture.built) (Fixture.env 0) in
  exists result, snd r = inr result /\ reset result = true.
Proof.
  intros r.
  eassert (Heq : Fixture.getDelta false [] (end_ Fixture.built)
                   (Fixture.env 0)
                 = (fst (fst r), snd (fst r), inr _))
    by (vm_compute; reflexivity).
  eexists. split; [reflexivity |].
  exact (proj1 (end_then_getDelta_rebuilds
                  Fixture.getGlobalTransformOptions
                  Fixture.getTransformOptionsForEntryFiles
                  Fixture.initialTraverseDependencies
                  Fixture.traverseDependencies Fixture.reorderGraph
                  Fixture.built false [] (Fixture.env 0) Heq)).
Defined.

(** A change to [/b] and a deletion of [/x], a traversal that rejects
    while [/y] is reported deleted. *)
Lemma getDelta_error_pending_exact_witness :
  let this := Fixture.after [Fixture.change "/b"; Fixture.delete "/x"] in
  let r :=
    Fixture.getDelta false [Fixture.delete "/y"] this (Fixture.env 1) in
  In "/y" (_deletedFiles (fst (fst r))) <->
  In "/y" ["/x"] \/ In "/y" ["/y"].
Proof.
  intros this r.
  assert (Heq : Fixture.getDelta false [Fixture.delete "/y"] this
                  (Fixture.env 1)
                = (fst (fst r), snd (fst r), inl Fixture.transformError))
    by (vm_compute; reflexivity).
  exact (proj1 (getDelta_error_pending_exact
                  Fixture.getGlobalTransformOptions
                  Fixture.getTransformOptionsForEntryFiles
                  Fixture.initialTraverseDependencies
                  Fixture.traverseDependencies Fixture.reorderGraph
                  false [Fixture.delete "/y"] this (Fixture.env 1) Heq)
           "/y").
Defined.

(** A change reported before the first delta. *)
Lemma getDelta_empty_graph_ignores_pending_witness :
  let this :=
    fst (_handleMultipleFileChanges [Fixture.change "/q"]
           (new Fixture.options) (Fixture.env 0)) in
  snd (Fixture.getDelta false [] this (Fixture.env 0))
  = snd (Fixture.getDelta false []
           (setPending JsSet.empty JsSet.empty this) (Fixture.env 0)).
Proof.
  intros this.
  exact (proj1 (getDelta_empty_graph_ignores_pending
                  Fixture.getGlobalTransformOptions
                  Fixture.getTransformOptionsForEntryFiles
                  Fixture.initialTraverseDependencies
                  Fixture.traverseDependencies Fixture.reorderGraph
                  false [] this (Fixture.env 0) eq_refl)).
Defined.

(** A change to [/b] whose traversal rejects before touching the graph. *)
Lemma getDelta_error_retry_resubmits_witness :
  let this := Fixture.after [Fixture.change "/b"] in
  let this' := fst (fst (Fixture.getDelta false [] this (Fixture.env 1))) in
  In "/b"
     (modifiedDependencies (_graph this')
        (invalidateDeleted (_graph this') (_deletedFiles this')
           (_modifiedFiles this'))).
Proof.
  intros this this'.
  assert (Heq : Fixture.getDelta false [] this (Fixture.env 1)
                = (this', snd (fst (Fixture.getDelta false [] this
                                      (Fixture.env 1))),
                   inl Fixture.transformError))
    by (vm_compute; reflexivity).
  assert (G : _graph (build_this
                (_getChangedDependencies Fixture.getGlobalTransformOptions
                   Fixture.getTransformOptionsForEntryFiles
                   Fixture.initialTraverseDependencies
                   Fixture.traverseDependencies
                   (_modifiedFiles this) (_deletedFiles this)
                   (setPending JsSet.empty JsSet.empty this)
                   (Fixture.env 1)))
              = _graph this)
    by (vm_compute; reflexivity).
  assert (Hp : In "/b"
                 (modifiedDependencies (_graph this)
                    (invalidateDeleted (_graph this) (_deletedFiles this)
                       (_modifiedFiles this))))
    by (vm_compute; auto).
  exact (proj2 (getDelta_error_retry_resubmits
                  Fixture.getGlobalTransformOptions
                  Fixture.getTransformOptionsForEntryFiles
                  Fixture.initialTraverseDependencies
                  Fixture.traverseDependencies Fixture.reorderGraph
                  false [] this (Fixture.env 1) "/b" Heq G Hp)).
Defined.

(** The built calculator after [/b] was deleted and then changed. *)
Lemma reachableWithoutError_pending_disjoint_witness :
  let this := Fixture.after [Fixture.delete "/b"; Fixture.change "/b"] in
  JsSet.disjoint (_modifiedFiles this) (_deletedFiles this).
Proof.
  intros this.
  eassert (Heq : Fixture.getDelta false [] (new Fixture.options)
                   (Fixture.env 0)
                 = (Fixture.built, _, inr _))
    by (vm_compute; reflexivity).
  assert (Q : @reachableWithoutError nat Fixture.getGlobalTransformOptions
                Fixture.getTransformOptionsForEntryFiles
                Fixture.initialTraverseDependencies
                Fixture.traverseDependencies Fixture.reorderGraph this)
    by (apply quiet_changes; eapply quiet_getDelta;
        [apply quiet_new | exact Heq]).
  exact (reachableWithoutError_pending_disjoint Q).
Defined.
